(** * SqsHeavyLifter: size accounting and send routing

    A shallow embedding of [lib/SqsHeavyLifter.js].  The JavaScript values the
    module handles are modelled by small inductive types, the two AWS clients
    and the uuid generator are collaborators the functions are parameterised
    over, and a call is a state-passing function over the log of collaborator
    requests. *)

From Stdlib Require Import ZArith NArith List String Ascii Bool Lia.
From Stdlib Require Import DecimalString Permutation.
Import ListNotations.

Set Warnings "-register-all".

Open Scope Z_scope.

(** ** JavaScript strings

    A JavaScript string is a sequence of UTF-16 code units. *)

Definition jsstring := list N.

Definition js (s : string) : jsstring :=
  map N_of_ascii (list_ascii_of_string s).

Definition is_high_surrogate (u : N) : bool :=
  ((0xD800 <=? u) && (u <=? 0xDBFF))%N.

Definition is_low_surrogate (u : N) : bool :=
  ((0xDC00 <=? u) && (u <=? 0xDFFF))%N.

Definition is_ascii (u : N) : bool := (u <? 0x80)%N.

(** Code point of a surrogate pair. *)
Definition pair_code_point (hi lo : N) : N :=
  (0x10000 + (hi - 0xD800) * 0x400 + (lo - 0xDC00))%N.

(** The UTF-8 bytes of one code point. *)
Definition utf8_of_code_point (c : N) : list N :=
  (if c <? 0x80 then [c]
   else if c <? 0x800 then [0xC0 + c / 0x40; 0x80 + c mod 0x40]
   else if c <? 0x10000 then
     [0xE0 + c / 0x1000; 0x80 + (c / 0x40) mod 0x40; 0x80 + c mod 0x40]
   else
     [0xF0 + c / 0x40000; 0x80 + (c / 0x1000) mod 0x40;
      0x80 + (c / 0x40) mod 0x40; 0x80 + c mod 0x40])%N.

Definition REPLACEMENT_CHARACTER : N := 0xFFFD%N.

(** The bytes Node writes for a string under the 'utf8' encoding: surrogate
    pairs are combined, an unpaired surrogate becomes U+FFFD. *)
Fixpoint utf8_encode (s : jsstring) : list N :=
  match s with
  | [] => []
  | u :: rest =>
      if is_high_surrogate u then
        match rest with
        | lo :: rest' =>
            if is_low_surrogate lo
            then utf8_of_code_point (pair_code_point u lo) ++ utf8_encode rest'
            else utf8_of_code_point REPLACEMENT_CHARACTER ++ utf8_encode rest
        | [] => utf8_of_code_point REPLACEMENT_CHARACTER
        end
      else if is_low_surrogate u then
        utf8_of_code_point REPLACEMENT_CHARACTER ++ utf8_encode rest
      else utf8_of_code_point u ++ utf8_encode rest
  end.

(** [Buffer.byteLength(s, 'utf8')]. *)
Definition Buffer_byteLength (s : jsstring) : Z :=
  Z.of_nat (List.length (utf8_encode s)).

(** ** JavaScript numbers and values

    Sizes, counts and thresholds are integers far below 2^53, where the
    arithmetic of doubles is exact; [NaN] is kept because the accounting can
    produce it. *)

Inductive number : Type :=
| NaN
| Int (z : Z).

Definition num_add (a b : number) : number :=
  match a, b with
  | Int x, Int y => Int (x + y)
  | _, _ => NaN
  end.

(** [a > b]: false as soon as one side is NaN. *)
Definition num_gt (a b : number) : bool :=
  match a, b with
  | Int x, Int y => y <? x
  | _, _ => false
  end.

(** [a <= b]: false as soon as one side is NaN. *)
Definition num_le (a b : number) : bool :=
  match a, b with
  | Int x, Int y => x <=? y
  | _, _ => false
  end.

Definition num_truthy (n : number) : bool :=
  match n with
  | NaN => false
  | Int z => negb (z =? 0)
  end.

Inductive jsval : Type :=
| Undefined
| Null
| Bool (b : bool)
| Num (n : number)
| Str (s : jsstring)
| Arr (elems : list jsval)
| Obj (props : list (jsstring * jsval)).

(** ToBoolean. *)
Definition truthy (v : jsval) : bool :=
  match v with
  | Undefined | Null => false
  | Bool b => b
  | Num n => num_truthy n
  | Str s => match s with [] => false | _ :: _ => true end
  | Arr _ | Obj _ => true
  end.

Inductive type_tag : Type :=
| t_undefined | t_object | t_boolean | t_number | t_string.

Definition typeof (v : jsval) : type_tag :=
  match v with
  | Undefined => t_undefined
  | Null => t_object
  | Bool _ => t_boolean
  | Num _ => t_number
  | Str _ => t_string
  | Arr _ | Obj _ => t_object
  end.

Definition type_tag_eqb (a b : type_tag) : bool :=
  match a, b with
  | t_undefined, t_undefined | t_object, t_object | t_boolean, t_boolean
  | t_number, t_number | t_string, t_string => true
  | _, _ => false
  end.

(** ** JSON.stringify *)

Definition hex_digit (d : N) : N :=
  (if d <? 10 then 48 + d else 87 + d)%N.

(** The six code units of a [\uXXXX] escape, in lower-case hexadecimal. *)
Definition unicode_escape (u : N) : jsstring :=
  (js "\u" ++ [hex_digit (u / 0x1000); hex_digit ((u / 0x100) mod 0x10);
               hex_digit ((u / 0x10) mod 0x10); hex_digit (u mod 0x10)])%N.

Definition quote_unit (u : N) : jsstring :=
  (if u =? 0x22 then [0x5C; 0x22]
   else if u =? 0x5C then [0x5C; 0x5C]
   else if u =? 0x08 then js "\b"
   else if u =? 0x0C then js "\f"
   else if u =? 0x0A then js "\n"
   else if u =? 0x0D then js "\r"
   else if u =? 0x09 then js "\t"
   else if u <? 0x20 then unicode_escape u
   else [u])%N.

Fixpoint quote_units (s : jsstring) : jsstring :=
  match s with
  | [] => []
  | u :: rest =>
      if is_high_surrogate u then
        match rest with
        | lo :: rest' =>
            if is_low_surrogate lo then u :: lo :: quote_units rest'
            else unicode_escape u ++ quote_units rest
        | [] => unicode_escape u
        end
      else if is_low_surrogate u then unicode_escape u ++ quote_units rest
      else quote_unit u ++ quote_units rest
  end.

Definition QuoteJSONString (s : jsstring) : jsstring :=
  [0x22%N] ++ quote_units s ++ [0x22%N].

(** Number::toString on the numbers of the model.  The integers meant are the
    safe ones, below 2^53 in absolute value, which JavaScript prints in plain
    decimal (it changes to exponent notation from 10^21 on). *)
Definition number_to_string (n : number) : jsstring :=
  match n with
  | NaN => js "null"
  | Int z => js (NilZero.string_of_int (Z.to_int z))
  end.

Fixpoint join_comma (l : list jsstring) : jsstring :=
  match l with
  | [] => []
  | [x] => x
  | x :: rest => x ++ js "," ++ join_comma rest
  end.

(** [JSON.stringify(v)] without replacer or indentation, as ECMAScript 2019
    defines it; [None] is the [undefined] it returns for an undefined value.
    Properties are listed in the order [Object.keys] gives them. *)
Fixpoint JSON_stringify (v : jsval) : option jsstring :=
  match v with
  | Undefined => None
  | Null => Some (js "null")
  | Bool true => Some (js "true")
  | Bool false => Some (js "false")
  | Num n => Some (number_to_string n)
  | Str s => Some (QuoteJSONString s)
  | Arr elems =>
      Some (js "[" ++
            join_comma (map (fun e => match JSON_stringify e with
                                      | Some s => s
                                      | None => js "null"
                                      end) elems) ++
            js "]")
  | Obj props =>
      Some (js "{" ++
            join_comma
              ((fix members (ps : list (jsstring * jsval)) : list jsstring :=
                  match ps with
                  | [] => []
                  | (k, x) :: rest =>
                      match JSON_stringify x with
                      | Some s => (QuoteJSONString k ++ js ":" ++ s) :: members rest
                      | None => members rest
                      end
                  end) props) ++
            js "}")
  end.

(** ** Message attributes

    An entry of [MessageAttributes] has the shape the SQS client documents:
    [DataType] and [StringValue] are strings, [BinaryValue] is a Buffer, a
    typed array, a Blob or a string.  [None] is a property that is absent,
    [undefined] or [null]. *)

Inductive binary : Type :=
| BinaryString (s : jsstring)
| NodeBuffer (bytes : list N)
| TypedArray (BYTES_PER_ELEMENT : N) (elements : N)
| Blob (size : N).

Record MessageAttributeValue : Type := {
  DataType : option jsstring;
  StringValue : option jsstring;
  BinaryValue : option binary
}.

(** The own enumerable properties of the attributes object, in the order of
    [Object.keys]. *)
Definition attributes := list (jsstring * MessageAttributeValue).

(** Property reads on a binary value; [None] is [undefined].  A Node Buffer is
    a Uint8Array, so it has both [byteLength] and [length]. *)
Definition prop_byteLength (v : binary) : option number :=
  match v with
  | BinaryString _ => None
  | NodeBuffer bytes => Some (Int (Z.of_nat (List.length bytes)))
  | TypedArray k n => Some (Int (Z.of_N (k * n)))
  | Blob _ => None
  end.

Definition prop_length (v : binary) : option number :=
  match v with
  | BinaryString s => Some (Int (Z.of_nat (List.length s)))
  | NodeBuffer bytes => Some (Int (Z.of_nat (List.length bytes)))
  | TypedArray _ n => Some (Int (Z.of_N n))
  | Blob _ => None
  end.

Definition prop_size (v : binary) : option number :=
  match v with
  | Blob sz => Some (Int (Z.of_N sz))
  | _ => None
  end.

(** [a || b] on values that are a number or [undefined]. *)
Definition or_else (a b : option number) : option number :=
  match a with
  | Some n => if num_truthy n then a else b
  | None => b
  end.

(** ToNumber on such a value. *)
Definition to_number (v : option number) : number :=
  match v with
  | Some n => n
  | None => NaN
  end.

(** [!value] for a binary value. *)
Definition binary_falsy (value : option binary) : bool :=
  match value with
  | None => true
  | Some (BinaryString []) => true
  | Some _ => false
  end.

(** ** Exceptions *)

Inductive exn : Type :=
| Error (message : string)
| TypeError (message : string).

(** What calling the missing [then] of an AWS.Request throws. *)
Definition THEN_IS_NOT_A_FUNCTION : exn :=
  TypeError "this._s3Client.putObject(...).then is not a function".

(** ** Size accounting *)

Definition MAX_MESSAGE_SIZE : Z := 262144.
Definition MAX_MESSAGE_ATTRIBUTES : nat := 10.

(** [value || ''] for a string or an absent value. *)
Definition or_empty (value : option jsstring) : jsstring :=
  match value with
  | Some s => s
  | None => []
  end.

Definition getStringSizeInBytes (value : option jsstring) : number :=
  Int (Buffer_byteLength (or_empty value)).

Definition getBinarySizeInBytes (value : option binary) : option number :=
  if binary_falsy value then Some (Int 0)
  else
    match value with
    | None => Some (Int 0)
    | Some (BinaryString s) => Some (getStringSizeInBytes (Some s))
    | Some v => or_else (or_else (prop_byteLength v) (prop_length v)) (prop_size v)
    end.

(** The callback of [reduce]. *)
Definition attribute_step (acc : number)
    (entry : jsstring * MessageAttributeValue) : number :=
  let '(attrName, attr) := entry in
  num_add
    (num_add
       (num_add
          (num_add acc (getStringSizeInBytes (Some attrName)))
          (getStringSizeInBytes (DataType attr)))
       (getStringSizeInBytes (StringValue attr)))
    (to_number (getBinarySizeInBytes (BinaryValue attr))).

(** [Object.keys] throws on [undefined] and [null]. *)
Definition getMessageAttributesSize (messageAttributes : option attributes)
  : exn + number :=
  match messageAttributes with
  | None => inl (TypeError "Cannot convert undefined or null to object")
  | Some entries => inr (fold_left attribute_step entries (Int 0))
  end.

Definition getMessageSize (message : jsval) : number :=
  getStringSizeInBytes (JSON_stringify message).

Definition getTotalMessageSize (message : jsval)
    (messageAttributes : option attributes) : exn + number :=
  let bodySize := getMessageSize message in
  match getMessageAttributesSize messageAttributes with
  | inl e => inl e
  | inr attributesSize => inr (num_add bodySize attributesSize)
  end.

(** ** The dispatcher *)

Record Options : Type := {
  opt_queueUrl : jsval;
  opt_bucketName : jsval;
  opt_maxMessageSize : jsval;
  opt_alwaysS3 : jsval
}.

(** [{}]. *)
Definition no_options : Options :=
  {| opt_queueUrl := Undefined; opt_bucketName := Undefined;
     opt_maxMessageSize := Undefined; opt_alwaysS3 := Undefined |}.

Record SqsHeavyLifter : Type := {
  queueUrl : jsval;
  bucketName : jsval;
  alwaysS3 : jsval;
  maxMessageSize : number
}.

(** [v <= 0] for a value whose [typeof] is 'number'. *)
Definition le_zero (v : jsval) : bool :=
  match v with
  | Num n => num_le n (Int 0)
  | _ => false
  end.

(** [v || dflt] for a value that passed the check of the constructor: a truthy
    one is a number. *)
Definition number_or (v : jsval) (dflt : number) : number :=
  match v with
  | Num n => if num_truthy n then n else dflt
  | _ => dflt
  end.

(** The constructor, up to the creation of the two AWS clients from the
    connection options, which are left out of [Options]. *)
Definition constructor (options : option Options) : exn + SqsHeavyLifter :=
  let options := match options with Some o => o | None => no_options end in
  if negb (truthy (opt_queueUrl options)) then
    inl (Error "queueUrl is required")
  else if truthy (opt_bucketName options)
          && negb (type_tag_eqb (typeof (opt_bucketName options)) t_string) then
    inl (Error "bucketName must be a string")
  else if truthy (opt_maxMessageSize options)
          && (negb (type_tag_eqb (typeof (opt_maxMessageSize options)) t_number)
              || le_zero (opt_maxMessageSize options)) then
    inl (Error "maxMessageSize must be a positive number")
  else
    inr {| queueUrl := opt_queueUrl options;
           bucketName := opt_bucketName options;
           alwaysS3 := opt_alwaysS3 options;
           maxMessageSize :=
             number_or (opt_maxMessageSize options) (Int MAX_MESSAGE_SIZE) |}.

Record PutObjectParams : Type := {
  Bucket : jsval;
  Key : jsstring;
  Body : option jsstring
}.

Record SendMessageParams : Type := {
  QueueUrl : jsval;
  MessageBody : option jsstring;
  MessageAttributes : option attributes
}.

(** A call of a method of a collaborator, with its parameters. *)
Inductive call : Type :=
| S3PutObject (params : PutObjectParams)
| SQSSendMessage (params : SendMessageParams).

(** What has been done so far: the number of keys drawn from the uuid
    generator and the calls made to the collaborators, oldest first. *)
Record world : Type := {
  draws : nat;
  calls : list call
}.

Definition draw (w : world) : world :=
  {| draws := S (draws w); calls := calls w |}.

Definition record_call (c : call) (w : world) : world :=
  {| draws := draws w; calls := calls w ++ [c] |}.

Definition is_queue_call (c : call) : bool :=
  match c with
  | SQSSendMessage _ => true
  | S3PutObject _ => false
  end.

Definition is_blob_call (c : call) : bool :=
  match c with
  | S3PutObject _ => true
  | SQSSendMessage _ => false
  end.

Definition queue_calls (w : world) : list call := filter is_queue_call (calls w).
Definition blob_calls (w : world) : list call := filter is_blob_call (calls w).

Section Dispatcher.

(** The acknowledgment of the queue service and the reason a collaborator
    rejects with. *)
Variables Ack Failure : Type.

(** What [putObject(params)] returns when it is called without callback.  The
    client of the SDK returns an AWS.Request: nothing is sent until [send] or
    [promise] is called on it, and it has no [then] method.  A client may also
    return a thenable, given with its settlement ([None] when fulfilled). *)
Inductive put_result : Type :=
| AWSRequest
| Thenable (settlement : option Failure).

(** The collaborators.  [uuid_v4 k] is the k-th key the generator hands out;
    [s3_putObject] gives what a call of [putObject] returns, and
    [sqs_sendMessage] the settlement of [sendMessage(params).promise()], each
    given the calls made before it. *)
Record Collaborators : Type := {
  uuid_v4 : nat -> jsstring;
  s3_putObject : list call -> PutObjectParams -> put_result;
  sqs_sendMessage : list call -> SendMessageParams -> Ack + Failure
}.

(** How a call of [sendMessage] ends: a synchronous throw, or the settlement
    of the promise it returns. *)
Inductive outcome : Type :=
| Throws (e : exn)
| Rejects (reason : Failure)
| Fulfills (result : Ack).

Variable env : Collaborators.
Variable this : SqsHeavyLifter.

Definition _sendToSQS (message : jsval) (messageAttributes : option attributes)
    (w : world) : outcome * world :=
  let params := {| QueueUrl := queueUrl this;
                   MessageBody := JSON_stringify message;
                   MessageAttributes := messageAttributes |} in
  (match sqs_sendMessage env (calls w) params with
   | inl ack => Fulfills ack
   | inr reason => Rejects reason
   end,
   record_call (SQSSendMessage params) w).

Definition _sendThroughS3 (message : jsval)
    (messageAttributes : option attributes) (w : world) : outcome * world :=
  let objectKey := uuid_v4 env (draws w) in
  let w1 := draw w in
  let params := {| Bucket := bucketName this;
                   Key := objectKey;
                   Body := JSON_stringify message |} in
  let w2 := record_call (S3PutObject params) w1 in
  match s3_putObject env (calls w1) params with
  | AWSRequest => (Throws THEN_IS_NOT_A_FUNCTION, w2)
  | Thenable (Some reason) => (Rejects reason, w2)
  | Thenable None =>
      let sqsMessage := Obj [(js "s3BucketName", bucketName this);
                             (js "s3Key", Str objectKey)] in
      _sendToSQS sqsMessage messageAttributes w2
  end.

(** [messageAttributes && Object.keys(messageAttributes).length > 10]. *)
Definition too_many_attributes (messageAttributes : option attributes) : bool :=
  match messageAttributes with
  | None => false
  | Some entries => Nat.ltb MAX_MESSAGE_ATTRIBUTES (List.length entries)
  end.

Definition sendMessage (message : jsval)
    (messageAttributes : option attributes) (w : world) : outcome * world :=
  if negb (truthy message) then
    (Throws (Error "message is required"), w)
  else if too_many_attributes messageAttributes then
    (Throws (Error "messageAttributes may contain up to 10 attributes"), w)
  else if truthy (alwaysS3 this) then
    _sendThroughS3 message messageAttributes w
  else
    match getTotalMessageSize message messageAttributes with
    | inl e => (Throws e, w)
    | inr total =>
        if num_gt total (maxMessageSize this)
        then _sendThroughS3 message messageAttributes w
        else _sendToSQS message messageAttributes w
    end.

End Dispatcher.

Arguments AWSRequest {Failure}.
Arguments Thenable {Failure} settlement.
Arguments Throws {Ack Failure} e.
Arguments Rejects {Ack Failure} reason.
Arguments Fulfills {Ack Failure} result.
Arguments uuid_v4 {Ack Failure} _ _.
Arguments s3_putObject {Ack Failure} _ _ _.
Arguments sqs_sendMessage {Ack Failure} _ _ _.
Arguments _sendToSQS {Ack Failure} env this message messageAttributes w.
Arguments _sendThroughS3 {Ack Failure} env this message messageAttributes w.
Arguments sendMessage {Ack Failure} env this message messageAttributes w.

(** ** Vocabulary of the specification

    The module throws plain [Error] objects and lets the rejections of its
    collaborators through; the specification names these failures after the
    step that produces them. *)

(** A failure of construction: an [Error] thrown by the constructor. *)
Definition ConfigurationError (r : exn + SqsHeavyLifter) : Prop :=
  exists msg, r = inl (Error msg).

(** A failure of the per-call validation: an [Error] thrown by [sendMessage]
    itself. *)
Definition InputError {Ack Failure} (o : outcome Ack Failure) : Prop :=
  exists msg, o = Throws (Error msg).


(** At most ten attributes, or none supplied. *)
Definition attribute_count_ok (messageAttributes : option attributes) : Prop :=
  forall entries : attributes,
    messageAttributes = Some entries -> (List.length entries <= 10)%nat.

(** The request the direct path sends to the queue. *)
Definition direct_request (this : SqsHeavyLifter) (message : jsval)
    (messageAttributes : option attributes) : SendMessageParams :=
  {| QueueUrl := queueUrl this;
     MessageBody := JSON_stringify message;
     MessageAttributes := messageAttributes |}.

(** The blob write of the offload path, under the key [key]. *)
Definition offload_request (this : SqsHeavyLifter) (key : jsstring)
    (message : jsval) : PutObjectParams :=
  {| Bucket := bucketName this; Key := key; Body := JSON_stringify message |}.

(** The pointer message the offload path sends to the queue. *)
Definition pointer_request (this : SqsHeavyLifter) (key : jsstring)
    (messageAttributes : option attributes) : SendMessageParams :=
  {| QueueUrl := queueUrl this;
     MessageBody :=
       JSON_stringify (Obj [(js "s3BucketName", bucketName this);
                            (js "s3Key", Str key)]);
     MessageAttributes := messageAttributes |}.

(** A call went the direct path: its only request is the queue send of the
    serialized body, and the outcome is the answer of the queue. *)
Definition sent_direct {Ack Failure} (env : Collaborators Ack Failure)
    (this : SqsHeavyLifter) (message : jsval)
    (messageAttributes : option attributes) (w : world)
    (r : outcome Ack Failure * world) : Prop :=
  let request := direct_request this message messageAttributes in
  calls (snd r) = calls w ++ [SQSSendMessage request] /\
  draws (snd r) = draws w /\
  fst r = match sqs_sendMessage env (calls w) request with
          | inl ack => Fulfills ack
          | inr reason => Rejects reason
          end.

(** A call went the offload path: it drew one key and called [putObject] with
    the serialized body under it; on an AWS.Request it threw there, on a
    rejected write it was rejected, and only after a fulfilled write it sent
    the pointer message. *)
Definition sent_offload {Ack Failure} (env : Collaborators Ack Failure)
    (this : SqsHeavyLifter) (message : jsval)
    (messageAttributes : option attributes) (w : world)
    (r : outcome Ack Failure * world) : Prop :=
  let key := uuid_v4 env (draws w) in
  let put := offload_request this key message in
  let pointer := pointer_request this key messageAttributes in
  draws (snd r) = S (draws w) /\
  match s3_putObject env (calls w) put with
  | AWSRequest =>
      calls (snd r) = calls w ++ [S3PutObject put] /\
      fst r = Throws THEN_IS_NOT_A_FUNCTION
  | Thenable (Some reason) =>
      calls (snd r) = calls w ++ [S3PutObject put] /\ fst r = Rejects reason
  | Thenable None =>
      calls (snd r) = calls w ++ [S3PutObject put; SQSSendMessage pointer] /\
      fst r = match sqs_sendMessage env (calls w ++ [S3PutObject put]) pointer with
              | inl ack => Fulfills ack
              | inr reason => Rejects reason
              end
  end.

(** The conditions under which [sendMessage] reaches [_sendThroughS3]. *)
Definition offload_triggered (this : SqsHeavyLifter) (message : jsval)
    (messageAttributes : option attributes) : Prop :=
  truthy (alwaysS3 this) = true \/
  exists total,
    getTotalMessageSize message messageAttributes = inr total /\
    num_gt total (maxMessageSize this) = true.

(** A threshold that is a positive number. *)
Definition positive_number (v : jsval) : Prop :=
  exists z, v = Num (Int z) /\ 0 < z.

(** ** Concrete inputs

    The scenario of the specification, the clients of the SDK and test
    doubles. *)

Definition scenario_body : jsval := Obj [(js "x", Num (Int 1))].

Definition scenario_options (threshold : jsval) : Options :=
  {| opt_queueUrl := Str (js "https://sqs.example/queue");
     opt_bucketName := Undefined;
     opt_maxMessageSize := threshold;
     opt_alwaysS3 := Undefined |}.

Definition scenario_lifter (force : bool) (threshold : Z) : SqsHeavyLifter :=
  {| queueUrl := Str (js "https://sqs.example/queue");
     bucketName := Str (js "payloads");
     alwaysS3 := Bool force;
     maxMessageSize := Int threshold |}.

Definition fresh_world : world := {| draws := 0; calls := [] |}.

(** Test doubles.  Keys [k0], [k1], ...; [putObject] returns a promise that
    is fulfilled; the queue acknowledges with the number of calls seen
    before. *)
Definition reliable : Collaborators nat string :=
  {| uuid_v4 := fun k => js "k" ++ number_to_string (Int (Z.of_nat k));
     s3_putObject := fun _ _ => Thenable None;
     sqs_sendMessage := fun log _ => inl (List.length log) |}.

(** The clients as the constructor creates them: [putObject] returns an
    AWS.Request; the queue acknowledges as in [reliable]. *)
Definition aws_sdk : Collaborators nat string :=
  {| uuid_v4 := fun k => js "k" ++ number_to_string (Int (Z.of_nat k));
     s3_putObject := fun _ _ => AWSRequest;
     sqs_sendMessage := fun log _ => inl (List.length log) |}.

Definition eleven_attributes : attributes :=
  map (fun name =>
         (js name, {| DataType := Some (js "String");
                      StringValue := Some (js "v");
                      BinaryValue := None |}))
      ["a"; "b"; "c"; "d"; "e"; "f"; "g"; "h"; "i"; "j"; "k"]%string.

(** What one entry adds to the attribute size. *)
Definition entry_size (entry : jsstring * MessageAttributeValue) : number :=
  attribute_step (Int 0) entry.

(** An attribute whose binary value is a Buffer of length zero. *)
Definition empty_buffer_attribute : MessageAttributeValue :=
  {| DataType := Some (js "Binary");
     StringValue := None;
     BinaryValue := Some (NodeBuffer []) |}.

(** U+20AC, one code unit, three bytes in UTF-8. *)
Definition euro_sign : jsstring := [0x20AC%N].

Definition text_attribute (value : jsstring) : MessageAttributeValue :=
  {| DataType := Some (js "String");
     StringValue := Some value;
     BinaryValue := None |}.

(** The text [{"x":1}]. *)
Definition scenario_text : jsstring :=
  js "{" ++ QuoteJSONString (js "x") ++ js ":1}".

(** ** Further vocabulary *)

(** A Buffer without bytes or a typed array without elements. *)
Definition zero_length (v : binary) : bool :=
  match v with
  | NodeBuffer [] => true
  | TypedArray _ elements => (elements =? 0)%N
  | _ => false
  end.

Definition has_zero_length_binary (entries : attributes) : bool :=
  existsb (fun entry : jsstring * MessageAttributeValue =>
             match BinaryValue (snd entry) with
             | Some v => zero_length v
             | None => false
             end) entries.

(** The sum of what the entries add, taken from the right. *)
Definition entries_sum (entries : attributes) : number :=
  fold_right (fun entry sum => num_add (entry_size entry) sum) (Int 0) entries.

(** Every element is a UTF-16 code unit. *)
Definition code_units (s : jsstring) : Prop :=
  Forall (fun u => (u < 0x10000)%N) s.

(** A falsy bucket or a string. *)
Definition bucket_accepted (v : jsval) : Prop :=
  truthy v = true -> exists s, v = Str s.

(** A falsy threshold or a positive number. *)
Definition threshold_accepted (v : jsval) : Prop :=
  truthy v = true -> positive_number v.

(** As [aws_sdk], with a queue that refuses every message. *)
Definition failing_queue : Collaborators nat string :=
  {| uuid_v4 := fun k => js "k" ++ number_to_string (Int (Z.of_nat k));
     s3_putObject := fun _ _ => AWSRequest;
     sqs_sendMessage := fun _ _ => inr "ServiceUnavailable"%string |}.

Definition binary_attribute (value : binary) : MessageAttributeValue :=
  {| DataType := Some (js "Binary");
     StringValue := None;
     BinaryValue := Some value |}.

(** ** Text and its encodings, after the Unicode standard

    A text is a sequence of Unicode scalar values.  These definitions follow
    the standard and not the module: the size accounting is compared with
    them. *)








(** ** Shape of the two paths *)

Section Paths.

Context {Ack Failure : Type}.
Variable env : Collaborators Ack Failure.
Variable this : SqsHeavyLifter.

Lemma too_many_attributes_false messageAttributes :
  attribute_count_ok messageAttributes ->
  too_many_attributes messageAttributes = false.
Proof.
  unfold attribute_count_ok, too_many_attributes, MAX_MESSAGE_ATTRIBUTES.
  destruct messageAttributes as [entries|]; [|reflexivity].
  intros Hcount. apply Nat.ltb_ge. now apply Hcount.
Qed.

Lemma too_many_attributes_true (entries : attributes) :
  (10 < List.length entries)%nat ->
  too_many_attributes (Some entries) = true.
Proof.
  intros Hlen. unfold too_many_attributes, MAX_MESSAGE_ATTRIBUTES.
  now apply Nat.ltb_lt.
Qed.

Lemma _sendToSQS_sent_direct message messageAttributes w :
  sent_direct env this message messageAttributes w
              (_sendToSQS env this message messageAttributes w).
Proof.
  unfold sent_direct, _sendToSQS, direct_request; cbn. auto.
Qed.

Lemma _sendThroughS3_sent_offload message messageAttributes w :
  sent_offload env this message messageAttributes w
               (_sendThroughS3 env this message messageAttributes w).
Proof.
  unfold sent_offload, _sendThroughS3, offload_request, pointer_request.
  cbn -[JSON_stringify].
  destruct (s3_putObject env (calls w) _) as [|[reason|]];
    cbn -[JSON_stringify].
  - auto.
  - auto.
  - rewrite <- app_assoc. cbn -[JSON_stringify]. auto.
Qed.

(** The decision of [sendMessage] once the validation has passed. *)
Lemma sendMessage_valid message messageAttributes w :
  truthy message = true ->
  attribute_count_ok messageAttributes ->
  sendMessage env this message messageAttributes w =
  if truthy (alwaysS3 this) then
    _sendThroughS3 env this message messageAttributes w
  else
    match getTotalMessageSize message messageAttributes with
    | inl e => (Throws e, w)
    | inr total =>
        if num_gt total (maxMessageSize this)
        then _sendThroughS3 env this message messageAttributes w
        else _sendToSQS env this message messageAttributes w
    end.
Proof.
  intros Hbody Hcount. unfold sendMessage.
  pose proof (too_many_attributes_false _ Hcount) as Hfew.
  rewrite Hbody, Hfew. reflexivity.
Qed.

Lemma sendMessage_offload message messageAttributes w :
  truthy message = true ->
  attribute_count_ok messageAttributes ->
  offload_triggered this message messageAttributes ->
  sendMessage env this message messageAttributes w =
  _sendThroughS3 env this message messageAttributes w.
Proof.
  intros Hbody Hcount Htrig. rewrite sendMessage_valid by assumption.
  destruct (truthy (alwaysS3 this)) eqn:Hforce; [reflexivity|].
  destruct Htrig as [Habs | (total & Hsize & Hgt)]; [congruence|].
  now rewrite Hsize, Hgt.
Qed.

(** On a client whose [putObject] returns an AWS.Request every call that is
    routed to the offload path throws, after the key was drawn and
    [putObject] was called. *)
Lemma sendMessage_offload_on_request message messageAttributes w :
  truthy message = true ->
  attribute_count_ok messageAttributes ->
  offload_triggered this message messageAttributes ->
  s3_putObject env (calls w)
    (offload_request this (uuid_v4 env (draws w)) message) = AWSRequest ->
  sendMessage env this message messageAttributes w =
  (Throws THEN_IS_NOT_A_FUNCTION,
   {| draws := S (draws w);
      calls := calls w ++
               [S3PutObject
                  (offload_request this (uuid_v4 env (draws w)) message)] |}).
Proof.
  intros Hbody Hcount Htrig Hput.
  rewrite sendMessage_offload by assumption.
  unfold _sendThroughS3. unfold offload_request in Hput. cbn -[JSON_stringify].
  cbn -[JSON_stringify] in Hput. rewrite Hput. reflexivity.
Qed.

Lemma num_le_not_gt a b : num_le a b = true -> num_gt a b = false.
Proof.
  destruct a as [|x], b as [|y]; cbn; try discriminate.
  intros H. apply Z.leb_le in H. apply Z.ltb_ge. exact H.
Qed.

Lemma sendMessage_direct message messageAttributes w total :
  truthy message = true ->
  attribute_count_ok messageAttributes ->
  truthy (alwaysS3 this) = false ->
  getTotalMessageSize message messageAttributes = inr total ->
  num_le total (maxMessageSize this) = true ->
  sendMessage env this message messageAttributes w =
  _sendToSQS env this message messageAttributes w.
Proof.
  intros Hbody Hcount Hforce Hsize Hle.
  rewrite sendMessage_valid by assumption.
  rewrite Hforce, Hsize, (num_le_not_gt _ _ Hle). reflexivity.
Qed.

(** Without entries the total is the size of the body. *)
Lemma getTotalMessageSize_no_entries message :
  getTotalMessageSize message (Some []) =
  inr (num_add (getMessageSize message) (Int 0)).
Proof. reflexivity. Qed.

End Paths.

(** ** Routing *)

Lemma no_attributes_count_ok : attribute_count_ok (Some []).
Proof.
  intros entries H. injection H as <-. cbn. lia.
Defined.

Lemma absent_attributes_count_ok : attribute_count_ok None.
Proof.
  intros entries H. discriminate H.
Defined.

(** C1, at two calls the rule covers, on the clients the constructor creates.
    The body [{x: 1}] has 7 bytes.  With the flag off and a threshold of 10, a
    call without attributes is not sent the direct path: the size computation
    throws a TypeError before any collaborator is called, while the same call
    with an attributes object without entries is sent direct.  With a
    threshold of 5 the call is routed to the offload path, which calls
    [putObject] and throws a TypeError at the missing [then] of the
    AWS.Request: the queue is never called. *)
Theorem C1_routing_throws_on_covered_calls :
  getMessageSize scenario_body = Int 7 /\
  sendMessage aws_sdk (scenario_lifter false 10) scenario_body None fresh_world =
  (Throws (TypeError "Cannot convert undefined or null to object"),
   fresh_world) /\
  sendMessage aws_sdk (scenario_lifter false 10) scenario_body (Some [])
              fresh_world =
  _sendToSQS aws_sdk (scenario_lifter false 10) scenario_body (Some [])
             fresh_world /\
  sendMessage aws_sdk (scenario_lifter false 5) scenario_body (Some [])
              fresh_world =
  _sendThroughS3 aws_sdk (scenario_lifter false 5) scenario_body (Some [])
                 fresh_world /\
  sendMessage aws_sdk (scenario_lifter false 5) scenario_body (Some [])
              fresh_world =
  (Throws THEN_IS_NOT_A_FUNCTION,
   {| draws := 1;
      calls := [S3PutObject (offload_request (scenario_lifter false 5)
                                             (js "k0") scenario_body)] |}).
Proof.
  repeat split; reflexivity.
Qed.

(** C10, at a forced offload without attributes, on the clients the
    constructor creates.  The size computation would throw on this call; it is
    skipped and the call is routed to the offload path, but it does not
    offload: [putObject] is called and the missing [then] of the AWS.Request
    throws a TypeError, so that the call is never acknowledged. *)
Theorem C10_forced_offload_throws :
  (exists e, getTotalMessageSize scenario_body None = inl e) /\
  sendMessage aws_sdk (scenario_lifter true 10) scenario_body None fresh_world =
  _sendThroughS3 aws_sdk (scenario_lifter true 10) scenario_body None
                 fresh_world /\
  sendMessage aws_sdk (scenario_lifter true 10) scenario_body None fresh_world =
  (Throws THEN_IS_NOT_A_FUNCTION,
   {| draws := 1;
      calls := [S3PutObject (offload_request (scenario_lifter true 10)
                                             (js "k0") scenario_body)] |}) /\
  forall ack,
    fst (sendMessage aws_sdk (scenario_lifter true 10) scenario_body None
                     fresh_world) <> Fulfills ack.
Proof.
  split; [eexists; reflexivity|].
  split; [reflexivity|]. split; [reflexivity|].
  intros ack Habs. discriminate Habs.
Qed.

(** ** Failures *)


(** C7. A call whose body is falsy, and a call with more than ten attributes,
    throws the input failure synchronously, whatever the force-offload flag and
    the threshold, and leaves both collaborators untouched. *)
Theorem C7_invalid_input_throws_before_any_call {Ack Failure}
    (env : Collaborators Ack Failure) (this : SqsHeavyLifter)
    (message : jsval) (messageAttributes : option attributes) (w : world) :
  truthy message = false \/
  (exists entries : attributes,
      messageAttributes = Some entries /\ (10 < List.length entries)%nat) ->
  InputError (fst (sendMessage env this message messageAttributes w)) /\
  snd (sendMessage env this message messageAttributes w) = w.
Proof.
  intros [Hbody | (entries & -> & Hlen)]; unfold sendMessage, InputError.
  - rewrite Hbody. cbn. split; [eexists; reflexivity | reflexivity].
  - rewrite (too_many_attributes_true entries Hlen).
    destruct (truthy message); cbn; (split; [eexists; reflexivity | reflexivity]).
Qed.

Lemma C7_invalid_input_throws_before_any_call_witness :
  (InputError (fst (sendMessage reliable (scenario_lifter true 10) Null (Some [])
                                fresh_world)) /\
   snd (sendMessage reliable (scenario_lifter true 10) Null (Some [])
                    fresh_world) = fresh_world) /\
  (InputError (fst (sendMessage reliable (scenario_lifter false 10) scenario_body
                                (Some eleven_attributes) fresh_world)) /\
   snd (sendMessage reliable (scenario_lifter false 10) scenario_body
                    (Some eleven_attributes) fresh_world) = fresh_world).
Proof.
  split.
  - apply C7_invalid_input_throws_before_any_call. left. reflexivity.
  - apply C7_invalid_input_throws_before_any_call. right.
    exists eleven_attributes. split; [reflexivity | cbn; lia].
Defined.

(** ** Construction *)

Lemma constructor_threshold (options : Options) (this : SqsHeavyLifter) :
  constructor (Some options) = inr this ->
  maxMessageSize this =
  number_or (opt_maxMessageSize options) (Int MAX_MESSAGE_SIZE) /\
  bucketName this = opt_bucketName options /\
  queueUrl this = opt_queueUrl options /\
  alwaysS3 this = opt_alwaysS3 options.
Proof.
  unfold constructor.
  destruct (negb (truthy (opt_queueUrl options))); [discriminate|].
  destruct (truthy (opt_bucketName options) && _); [discriminate|].
  destruct (truthy (opt_maxMessageSize options) && _); [discriminate|].
  intros H. injection H as <-. cbn. auto.
Qed.


(** C4, at a threshold of zero.  The constructor refuses -1 with its message
    'maxMessageSize must be a positive number'; it does not refuse 0, which is
    no positive number either and which its own comparison [<= 0] is written
    to catch: the dispatcher is built, with a threshold of 262144. *)
Theorem C4_zero_threshold_is_not_refused :
  ~ positive_number (Num (Int 0)) /\
  constructor (Some (scenario_options (Num (Int (-1))))) =
  inl (Error "maxMessageSize must be a positive number") /\
  le_zero (Num (Int 0)) = true /\
  ~ ConfigurationError (constructor (Some (scenario_options (Num (Int 0))))) /\
  constructor (Some (scenario_options (Num (Int 0)))) =
  inr {| queueUrl := Str (js "https://sqs.example/queue");
         bucketName := Undefined;
         alwaysS3 := Undefined;
         maxMessageSize := Int 262144 |}.
Proof.
  split.
  - intros (z & Heq & Hpos). injection Heq as <-. lia.
  - split; [reflexivity|]. split; [reflexivity|]. split; [|reflexivity].
    intros (msg & Habs). discriminate Habs.
Qed.

(** ** Size accounting *)

Lemma utf8_of_code_point_length (c : N) :
  List.length (utf8_of_code_point c) =
  if (c <? 0x80)%N then 1%nat
  else if (c <? 0x800)%N then 2%nat
  else if (c <? 0x10000)%N then 3%nat else 4%nat.
Proof.
  unfold utf8_of_code_point.
  destruct (c <? 0x80)%N; [reflexivity|].
  destruct (c <? 0x800)%N; [reflexivity|].
  destruct (c <? 0x10000)%N; reflexivity.
Qed.

Lemma utf8_of_code_point_nonempty (c : N) :
  (1 <= List.length (utf8_of_code_point c))%nat.
Proof.
  rewrite utf8_of_code_point_length.
  destruct (c <? 0x80)%N; [lia|].
  destruct (c <? 0x800)%N; [lia|].
  destruct (c <? 0x10000)%N; lia.
Qed.

Lemma utf8_of_code_point_non_ascii (c : N) :
  is_ascii c = false -> (2 <= List.length (utf8_of_code_point c))%nat.
Proof.
  unfold is_ascii. intros Hc. rewrite utf8_of_code_point_length, Hc.
  destruct (c <? 0x800)%N; [lia|].
  destruct (c <? 0x10000)%N; lia.
Qed.

Lemma utf8_of_pair_length (hi lo : N) :
  List.length (utf8_of_code_point (pair_code_point hi lo)) = 4%nat.
Proof.
  rewrite utf8_of_code_point_length.
  assert (H : (0x10000 <= pair_code_point hi lo)%N)
    by (unfold pair_code_point; lia).
  destruct (N.ltb_spec (pair_code_point hi lo) 0x80); [lia|].
  destruct (N.ltb_spec (pair_code_point hi lo) 0x800); [lia|].
  destruct (N.ltb_spec (pair_code_point hi lo) 0x10000); [lia|reflexivity].
Qed.

Lemma surrogate_not_ascii (u : N) :
  is_high_surrogate u = true \/ is_low_surrogate u = true ->
  is_ascii u = false.
Proof.
  unfold is_high_surrogate, is_low_surrogate, is_ascii.
  intros [H | H]; apply andb_prop in H; destruct H as [H _];
    apply N.leb_le in H; apply N.ltb_ge; lia.
Qed.

(** The encoding never has fewer bytes than the string has code units, and has
    more as soon as one code unit is outside ASCII. *)
Lemma utf8_encode_length_bounded (n : nat) :
  forall s : jsstring,
    (List.length s <= n)%nat ->
    (List.length s <= List.length (utf8_encode s))%nat /\
    (forallb is_ascii s = false ->
     (List.length s < List.length (utf8_encode s))%nat).
Proof.
  induction n as [|n IH]; intros s Hn.
  - destruct s; [|cbn in Hn; lia]. cbn. split; [lia | discriminate].
  - destruct s as [|u rest]; [cbn; split; [lia | discriminate]|].
    cbn [utf8_encode]. cbn in Hn.
    destruct (is_high_surrogate u) eqn:Hhi.
    + destruct rest as [|lo rest'].
      * cbn. split; [lia | intros _; lia].
      * destruct (is_low_surrogate lo) eqn:Hlo.
        -- destruct (IH rest') as [Hle _]; [cbn in Hn; lia|].
           rewrite length_app, utf8_of_pair_length. cbn [List.length].
           split; [lia | intros _; lia].
        -- destruct (IH (lo :: rest')) as [Hle _]; [lia|].
           rewrite length_app. cbn [List.length] in *.
           change (List.length (utf8_of_code_point REPLACEMENT_CHARACTER))
             with 3%nat.
           split; [lia | intros _; lia].
    + destruct (is_low_surrogate u) eqn:Hlo.
      * destruct (IH rest) as [Hle _]; [lia|].
        rewrite length_app. cbn [List.length].
        change (List.length (utf8_of_code_point REPLACEMENT_CHARACTER))
          with 3%nat.
        split; [lia | intros _; lia].
      * destruct (IH rest) as [Hle Hlt]; [lia|].
        rewrite length_app. cbn [List.length forallb].
        pose proof (utf8_of_code_point_nonempty u) as Hone.
        split; [lia|].
        destruct (is_ascii u) eqn:Hascii; cbn [andb].
        -- intros Hrest. specialize (Hlt Hrest). lia.
        -- intros _. pose proof (utf8_of_code_point_non_ascii u Hascii). lia.
Qed.

Lemma utf8_encode_non_ascii (s : jsstring) :
  forallb is_ascii s = false ->
  Z.of_nat (List.length s) < Buffer_byteLength s.
Proof.
  intros H. unfold Buffer_byteLength.
  destruct (utf8_encode_length_bounded (List.length s) s (le_n _)) as [_ Hlt].
  specialize (Hlt H). lia.
Qed.

Lemma Buffer_byteLength_nonneg (s : jsstring) : 0 <= Buffer_byteLength s.
Proof. unfold Buffer_byteLength. lia. Qed.

(** What the shapes of a binary value contribute. *)
Lemma getBinarySizeInBytes_absent : getBinarySizeInBytes None = Some (Int 0).
Proof. reflexivity. Qed.

Lemma getBinarySizeInBytes_string (s : jsstring) :
  getBinarySizeInBytes (Some (BinaryString s)) = Some (Int (Buffer_byteLength s)).
Proof. destruct s; reflexivity. Qed.

Lemma getBinarySizeInBytes_blob (size : N) :
  getBinarySizeInBytes (Some (Blob size)) = Some (Int (Z.of_N size)).
Proof. reflexivity. Qed.

Lemma getBinarySizeInBytes_buffer (bytes : list N) :
  bytes <> [] ->
  getBinarySizeInBytes (Some (NodeBuffer bytes)) =
  Some (Int (Z.of_nat (List.length bytes))).
Proof.
  destruct bytes as [|b bytes]; [congruence|]. intros _.
  unfold getBinarySizeInBytes. cbn -[Z.of_nat].
  destruct (Z.of_nat (S (List.length bytes)) =? 0) eqn:Hz; [|reflexivity].
  apply Z.eqb_eq in Hz. lia.
Qed.


Lemma num_add_assoc (a b c : number) :
  num_add (num_add a b) c = num_add a (num_add b c).
Proof.
  destruct a, b, c; cbn; try reflexivity. f_equal. lia.
Qed.

Lemma attribute_step_entry_size (acc : number)
    (entry : jsstring * MessageAttributeValue) :
  attribute_step acc entry = num_add acc (entry_size entry).
Proof.
  destruct entry as [attrName attr]. unfold entry_size, attribute_step.
  destruct acc as [|z]; cbn.
  - reflexivity.
  - destruct (to_number (getBinarySizeInBytes (BinaryValue attr))); cbn;
      [reflexivity|]. f_equal. lia.
Qed.

(** The attribute size is the sum of what the entries add, and the total adds
    the size of the body. *)
Lemma fold_attribute_step (entries : attributes) (acc : number) :
  fold_left attribute_step entries acc =
  num_add acc (fold_right (fun entry sum => num_add (entry_size entry) sum)
                          (Int 0) entries).
Proof.
  revert acc. induction entries as [|entry entries IH]; intros acc; cbn.
  - destruct acc; cbn; [reflexivity|]. f_equal. lia.
  - rewrite IH, attribute_step_entry_size. apply num_add_assoc.
Qed.

Lemma getTotalMessageSize_sum (message : jsval) (entries : attributes) :
  getTotalMessageSize message (Some entries) =
  inr (num_add (getMessageSize message)
               (fold_right (fun entry sum => num_add (entry_size entry) sum)
                           (Int 0) entries)).
Proof.
  unfold getTotalMessageSize, getMessageAttributesSize.
  rewrite fold_attribute_step. f_equal. f_equal.
  destruct (fold_right _ _ entries); reflexivity.
Qed.

(** C5, at a Buffer of length zero: the binary size is [undefined] instead of
    0, the total is NaN, and the message, whose 7 bytes exceed the threshold
    of 1, is sent the direct path. *)
Theorem C5_empty_buffer_is_not_sized_zero :
  getBinarySizeInBytes (Some (NodeBuffer [])) = None /\
  getTotalMessageSize scenario_body
    (Some [(js "payload", empty_buffer_attribute)]) = inr NaN /\
  getMessageSize scenario_body = Int 7 /\
  sendMessage reliable (scenario_lifter false 1) scenario_body
    (Some [(js "payload", empty_buffer_attribute)]) fresh_world =
  _sendToSQS reliable (scenario_lifter false 1) scenario_body
    (Some [(js "payload", empty_buffer_attribute)]) fresh_world.
Proof.
  repeat split; reflexivity.
Qed.

(** *** The size of a text against the standard *)
















(** ** Offload without a bucket *)

(** C9, at an offload call of a dispatcher built without bucket, on the
    clients the constructor creates.  The constructor accepts the options and
    [putObject] is called with an undefined bucket, but the call raises an
    error: the missing [then] of the AWS.Request throws a TypeError, and the
    pointer message is never sent. *)
Theorem C9_offload_without_bucket_throws :
  exists this,
    constructor (Some (scenario_options (Num (Int 5)))) = inr this /\
    bucketName this = Undefined /\
    sendMessage aws_sdk this scenario_body (Some []) fresh_world =
    (Throws THEN_IS_NOT_A_FUNCTION,
     {| draws := 1;
        calls := [S3PutObject {| Bucket := Undefined;
                                 Key := js "k0";
                                 Body := Some scenario_text |}] |}) /\
    queue_calls (snd (sendMessage aws_sdk this scenario_body (Some [])
                                  fresh_world)) = [].
Proof.
  eexists. split; [reflexivity|]. repeat split; reflexivity.
Qed.

(** ** The scenario of the specification *)

Lemma scenario_serialization :
  JSON_stringify scenario_body = Some scenario_text /\
  Buffer_byteLength scenario_text = 7.
Proof. split; reflexivity. Qed.

(** C2, as the code has it.  A call with a present body, an attributes object
    without entries, the force-offload flag off and a serialized body of at
    most the threshold in bytes goes the direct path with the serialization as
    payload; the body [{x: 1}] under a threshold of 10 is sent direct, and its
    payload is the 7 bytes of its serialization. *)
Theorem C2_direct_send_without_entries {Ack Failure}
    (env : Collaborators Ack Failure) (w : world) :
  (forall (this : SqsHeavyLifter) (message : jsval),
      truthy message = true ->
      truthy (alwaysS3 this) = false ->
      num_le (getMessageSize message) (maxMessageSize this) = true ->
      sent_direct env this message (Some []) w
                  (sendMessage env this message (Some []) w)) /\
  sent_direct env (scenario_lifter false 10) scenario_body (Some []) w
              (sendMessage env (scenario_lifter false 10) scenario_body
                           (Some []) w) /\
  MessageBody (direct_request (scenario_lifter false 10) scenario_body
                              (Some [])) = Some scenario_text /\
  Buffer_byteLength scenario_text = 7.
Proof.
  assert (Hgeneral :
            forall (this : SqsHeavyLifter) (message : jsval),
              truthy message = true ->
              truthy (alwaysS3 this) = false ->
              num_le (getMessageSize message) (maxMessageSize this) = true ->
              sent_direct env this message (Some []) w
                          (sendMessage env this message (Some []) w)).
  { intros this message Hbody Hforce Hle.
    rewrite (sendMessage_direct env this message (Some []) w
               (num_add (getMessageSize message) (Int 0))
               Hbody no_attributes_count_ok Hforce
               (getTotalMessageSize_no_entries message)).
    - apply _sendToSQS_sent_direct.
    - destruct (getMessageSize message) as [|z]; cbn in *; [discriminate|].
      now rewrite Z.add_0_r. }
  split; [exact Hgeneral|].
  split; [|split; reflexivity].
  apply Hgeneral; reflexivity.
Qed.

Lemma C2_direct_send_without_entries_witness :
  sent_direct reliable (scenario_lifter false 7) (Str euro_sign) (Some [])
    fresh_world
    (sendMessage reliable (scenario_lifter false 7) (Str euro_sign) (Some [])
                 fresh_world).
Proof.
  apply (proj1 (C2_direct_send_without_entries reliable fresh_world)
           (scenario_lifter false 7) (Str euro_sign));
    reflexivity.
Defined.

(** C2 as stated fails on the scenario: whether the attributes are left out or
    are an object without entries, no request with a payload of 8 bytes
    reaches the queue.  Without entries the payload has 7 bytes. *)
Lemma C2_scenario_payload_is_not_8_bytes :
  getMessageSize scenario_body = Int 7 /\
  calls (snd (sendMessage reliable (scenario_lifter false 10) scenario_body
                          (Some []) fresh_world)) =
  [SQSSendMessage {| QueueUrl := queueUrl (scenario_lifter false 10);
                     MessageBody := Some scenario_text;
                     MessageAttributes := Some [] |}] /\
  forall messageAttributes,
    messageAttributes = None \/ messageAttributes = Some [] ->
    ~ exists params payload,
        In (SQSSendMessage params)
           (calls (snd (sendMessage reliable (scenario_lifter false 10)
                                    scenario_body messageAttributes
                                    fresh_world))) /\
        MessageBody params = Some payload /\
        Buffer_byteLength payload = 8.
Proof.
  split; [reflexivity|]. split; [reflexivity|].
  intros messageAttributes [-> | ->] (params & payload & Hin & Hbody & Hlen).
  - cbn in Hin. exact Hin.
  - cbn in Hin. destruct Hin as [Heq | []].
    injection Heq as <-. cbn in Hbody. injection Hbody as <-.
    vm_compute in Hlen. discriminate Hlen.
Qed.

(** With the attributes left out and the flag off, the size computation
    throws before any request is issued. *)
Lemma sendMessage_absent_attributes {Ack Failure}
    (env : Collaborators Ack Failure) (this : SqsHeavyLifter)
    (message : jsval) (w : world) :
  truthy message = true ->
  truthy (alwaysS3 this) = false ->
  sendMessage env this message None w =
  (Throws (TypeError "Cannot convert undefined or null to object"), w).
Proof.
  intros Hbody Hforce. unfold sendMessage. rewrite Hbody, Hforce. reflexivity.
Qed.

(** ** More on construction *)

Lemma bucket_check_false (v : jsval) :
  truthy v && negb (type_tag_eqb (typeof v) t_string) = false <->
  bucket_accepted v.
Proof.
  unfold bucket_accepted. split.
  - intros Hcheck Htruthy. rewrite Htruthy in Hcheck. cbn in Hcheck.
    destruct v as [| |b|n|s|l|l]; cbn in Hcheck; try discriminate.
    now exists s.
  - intros Hok. destruct (truthy v) eqn:Htruthy; [|reflexivity].
    destruct (Hok eq_refl) as [s ->]. reflexivity.
Qed.

Lemma threshold_check_false (v : jsval) :
  truthy v && (negb (type_tag_eqb (typeof v) t_number) || le_zero v) = false <->
  threshold_accepted v.
Proof.
  unfold threshold_accepted. split.
  - intros Hcheck Htruthy. rewrite Htruthy in Hcheck. cbn in Hcheck.
    destruct v as [| |b|n|s|l|l]; cbn in Hcheck; try discriminate.
    destruct n as [|z]; [discriminate|]. cbn in Hcheck.
    apply Z.leb_gt in Hcheck. exists z. split; [reflexivity | exact Hcheck].
  - intros Hok. destruct (truthy v) eqn:Htruthy; [|reflexivity].
    destruct (Hok eq_refl) as (z & -> & Hpos). cbn.
    apply Z.leb_gt. exact Hpos.
Qed.

(** X1. The constructor succeeds exactly on options whose queue URL is truthy,
    whose bucket is falsy or a string and whose threshold is falsy or a
    positive number; the dispatcher then carries the queue URL, the bucket and
    the force-offload flag of the options unchanged, and every failure is a
    plain [Error]. *)
Theorem X1_constructor_accepts_iff (options : Options) :
  ((exists this, constructor (Some options) = inr this) <->
   truthy (opt_queueUrl options) = true /\
   bucket_accepted (opt_bucketName options) /\
   threshold_accepted (opt_maxMessageSize options)) /\
  (forall this,
      constructor (Some options) = inr this ->
      queueUrl this = opt_queueUrl options /\
      bucketName this = opt_bucketName options /\
      alwaysS3 this = opt_alwaysS3 options) /\
  (forall e, constructor (Some options) = inl e -> exists msg, e = Error msg).
Proof.
  split; [|split].
  - split.
    + intros [this Hok]. unfold constructor in Hok.
      destruct (truthy (opt_queueUrl options)) eqn:Hq; [|discriminate].
      cbn in Hok.
      destruct (truthy (opt_bucketName options) && _) eqn:Hb; [discriminate|].
      destruct (truthy (opt_maxMessageSize options) && _) eqn:Ht;
        [discriminate|].
      split; [reflexivity|]. split.
      * now apply bucket_check_false.
      * now apply threshold_check_false.
    + intros (Hq & Hb & Ht). unfold constructor.
      rewrite Hq. cbn.
      apply bucket_check_false in Hb. apply threshold_check_false in Ht.
      rewrite Hb, Ht. eexists; reflexivity.
  - intros this Hok.
    destruct (constructor_threshold options this Hok) as (_ & Hb & Hq & Hf).
    auto.
  - intros e. unfold constructor.
    destruct (negb (truthy (opt_queueUrl options)));
      [intros H; injection H as <-; eexists; reflexivity|].
    destruct (truthy (opt_bucketName options) && _);
      [intros H; injection H as <-; eexists; reflexivity|].
    destruct (truthy (opt_maxMessageSize options) && _);
      [intros H; injection H as <-; eexists; reflexivity|].
    discriminate.
Qed.

Lemma X1_constructor_accepts_iff_witness :
  (exists this,
      constructor (Some (scenario_options (Num (Int 10)))) = inr this) /\
  (forall this,
      constructor (Some (scenario_options (Num (Int 10)))) = inr this ->
      queueUrl this = Str (js "https://sqs.example/queue")) /\
  (forall e,
      constructor (Some (scenario_options (Str (js "10")))) = inl e ->
      exists msg, e = Error msg).
Proof.
  destruct (X1_constructor_accepts_iff (scenario_options (Num (Int 10))))
    as ([_ Hbuild] & Hfields & _).
  split; [|split].
  - apply Hbuild. split; [reflexivity|]. split.
    + intros Habs. discriminate Habs.
    + intros _. exists 10. split; [reflexivity | lia].
  - intros this Hok. destruct (Hfields this Hok) as (Hq & _). exact Hq.
  - intros e He.
    exact (proj2 (proj2 (X1_constructor_accepts_iff
                           (scenario_options (Str (js "10"))))) e He).
Defined.



(** X3. The constructor checks in a fixed order and reports the first failure:
    without options, or with a falsy queue URL, it throws 'queueUrl is
    required' whatever the other options are; with a queue URL and a truthy
    bucket that is not a string it throws 'bucketName must be a string'
    whatever the threshold is; a falsy bucket of any type is not checked. *)
Theorem X3_constructor_reports_first_failure :
  constructor None = inl (Error "queueUrl is required") /\
  (forall options,
      truthy (opt_queueUrl options) = false ->
      constructor (Some options) = inl (Error "queueUrl is required")) /\
  (forall options,
      truthy (opt_queueUrl options) = true ->
      truthy (opt_bucketName options) = true ->
      (forall s, opt_bucketName options <> Str s) ->
      constructor (Some options) = inl (Error "bucketName must be a string")) /\
  (forall options,
      truthy (opt_queueUrl options) = true ->
      truthy (opt_bucketName options) = false ->
      threshold_accepted (opt_maxMessageSize options) ->
      exists this,
        constructor (Some options) = inr this /\
        bucketName this = opt_bucketName options).
Proof.
  split; [reflexivity|]. split; [|split].
  - intros options Hq. unfold constructor. now rewrite Hq.
  - intros options Hq Hb Hnot. unfold constructor. rewrite Hq, Hb. cbn.
    destruct (opt_bucketName options) as [| |b|n|s|l|l]; try reflexivity.
    exfalso. now apply (Hnot s).
  - intros options Hq Hb Ht. unfold constructor. rewrite Hq, Hb. cbn.
    apply threshold_check_false in Ht. rewrite Ht.
    eexists. split; reflexivity.
Qed.

Lemma X3_constructor_reports_first_failure_witness :
  constructor (Some {| opt_queueUrl := Str [];
                       opt_bucketName := Num (Int 7);
                       opt_maxMessageSize := Num (Int (-1));
                       opt_alwaysS3 := Undefined |}) =
  inl (Error "queueUrl is required") /\
  constructor (Some {| opt_queueUrl := Str (js "q");
                       opt_bucketName := Num (Int 7);
                       opt_maxMessageSize := Num (Int (-1));
                       opt_alwaysS3 := Undefined |}) =
  inl (Error "bucketName must be a string") /\
  exists this,
    constructor (Some {| opt_queueUrl := Str (js "q");
                         opt_bucketName := Bool false;
                         opt_maxMessageSize := Undefined;
                         opt_alwaysS3 := Undefined |}) = inr this /\
    bucketName this = Bool false.
Proof.
  destruct X3_constructor_reports_first_failure as (_ & Hq & Hb & Hfalsy).
  split; [|split].
  - apply Hq. reflexivity.
  - apply Hb; [reflexivity | reflexivity | intros s Habs; discriminate Habs].
  - apply (Hfalsy {| opt_queueUrl := Str (js "q");
                     opt_bucketName := Bool false;
                     opt_maxMessageSize := Undefined;
                     opt_alwaysS3 := Undefined |});
      [reflexivity | reflexivity | intros Habs; discriminate Habs].
Defined.

(** ** More on size accounting *)

Lemma num_add_comm (a b : number) : num_add a b = num_add b a.
Proof.
  destruct a, b; cbn; try reflexivity. f_equal. lia.
Qed.

Lemma getStringSizeInBytes_number (value : option jsstring) :
  exists z, getStringSizeInBytes value = Int z /\ 0 <= z.
Proof.
  exists (Buffer_byteLength (or_empty value)).
  split; [reflexivity | apply Buffer_byteLength_nonneg].
Qed.

(** The binary size is [undefined] on a value of length zero and a number that
    is not negative on every other value. *)
Lemma getBinarySizeInBytes_cases (value : option binary) :
  match value with
  | Some v =>
      if zero_length v then getBinarySizeInBytes value = None
      else exists z, getBinarySizeInBytes value = Some (Int z) /\ 0 <= z
  | None => getBinarySizeInBytes value = Some (Int 0)
  end.
Proof.
  destruct value as [[s|bytes|k n|size]|]; cbn [zero_length].
  - exists (Buffer_byteLength s).
    split; [apply getBinarySizeInBytes_string | apply Buffer_byteLength_nonneg].
  - destruct bytes as [|b bytes]; [reflexivity|].
    exists (Z.of_nat (List.length (b :: bytes))).
    split; [apply getBinarySizeInBytes_buffer; discriminate | lia].
  - destruct n as [|n]; cbn [N.eqb].
    + unfold getBinarySizeInBytes. cbn. rewrite N.mul_0_r. reflexivity.
    + destruct k as [|k].
      * exists (Z.pos n). split; [reflexivity | lia].
      * exists (Z.pos (k * n)). split; [reflexivity | lia].
  - exists (Z.of_N size). split; [reflexivity | lia].
  - reflexivity.
Qed.

(** X4. The binary size of a value is [undefined] exactly when the value is a
    Buffer without bytes or a typed array without elements; on every other
    value, absent ones included, it is a number that is not negative. *)
Theorem X4_binary_size_undefined_iff (value : option binary) :
  (getBinarySizeInBytes value = None <->
   exists v, value = Some v /\ zero_length v = true) /\
  ((forall v, value = Some v -> zero_length v = false) ->
   exists z, getBinarySizeInBytes value = Some (Int z) /\ 0 <= z).
Proof.
  pose proof (getBinarySizeInBytes_cases value) as Hcases.
  destruct value as [v|].
  - destruct (zero_length v) eqn:Hzero.
    + split.
      * split; [intros _; now exists v | intros _; exact Hcases].
      * intros Hnot. specialize (Hnot v eq_refl). congruence.
    + destruct Hcases as (z & Hz & Hpos). split.
      * split; [congruence|].
        intros (v' & Hv & Hz'). injection Hv as <-. congruence.
      * intros _. now exists z.
  - split.
    + split; [congruence | intros (v & Hv & _); discriminate].
    + intros _. exists 0. split; [exact Hcases | lia].
Qed.

Lemma X4_binary_size_undefined_iff_witness :
  getBinarySizeInBytes (Some (TypedArray 4 0)) = None /\
  exists z, getBinarySizeInBytes (Some (Blob 0)) = Some (Int z) /\ 0 <= z.
Proof.
  split.
  - apply (proj1 (X4_binary_size_undefined_iff (Some (TypedArray 4 0)))).
    exists (TypedArray 4 0). split; reflexivity.
  - apply (proj2 (X4_binary_size_undefined_iff (Some (Blob 0)))).
    intros v Hv. injection Hv as <-. reflexivity.
Defined.

(** X5. What each shape of binary value adds: a Buffer with bytes its number
    of bytes, a typed array with elements the product of its element size and
    its number of elements, a Blob its declared size (zero included), a string
    the bytes of its UTF-8 encoding. *)
Theorem X5_binary_size_of_each_shape :
  (forall bytes,
      bytes <> [] ->
      getBinarySizeInBytes (Some (NodeBuffer bytes)) =
      Some (Int (Z.of_nat (List.length bytes)))) /\
  (forall k n,
      k <> 0%N -> n <> 0%N ->
      getBinarySizeInBytes (Some (TypedArray k n)) =
      Some (Int (Z.of_N (k * n)))) /\
  (forall size,
      getBinarySizeInBytes (Some (Blob size)) = Some (Int (Z.of_N size))) /\
  (forall s,
      getBinarySizeInBytes (Some (BinaryString s)) =
      Some (Int (Z.of_nat (List.length (utf8_encode s))))).
Proof.
  split; [exact getBinarySizeInBytes_buffer|]. split; [|split].
  - intros k n Hk Hn. destruct k as [|k]; [congruence|].
    destruct n as [|n]; [congruence|]. reflexivity.
  - exact getBinarySizeInBytes_blob.
  - exact getBinarySizeInBytes_string.
Qed.

Lemma X5_binary_size_of_each_shape_witness :
  getBinarySizeInBytes (Some (NodeBuffer [1; 2; 3]%N)) = Some (Int 3) /\
  getBinarySizeInBytes (Some (TypedArray 2 5)) = Some (Int 10).
Proof.
  destruct X5_binary_size_of_each_shape as (Hbuffer & Harray & _).
  split.
  - apply (Hbuffer [1; 2; 3]%N). discriminate.
  - apply (Harray 2%N 5%N); discriminate.
Defined.

Lemma entries_sum_permutation (entries entries' : attributes) :
  Permutation entries entries' -> entries_sum entries = entries_sum entries'.
Proof.
  unfold entries_sum.
  induction 1 as [|x l l' _ IH|x y l|l l' l'' _ IH1 _ IH2]; cbn.
  - reflexivity.
  - now rewrite IH.
  - rewrite <- !num_add_assoc. f_equal. apply num_add_comm.
  - now rewrite IH1.
Qed.

Lemma entries_sum_app (entries entries' : attributes) :
  entries_sum (entries ++ entries') =
  num_add (entries_sum entries) (entries_sum entries').
Proof.
  unfold entries_sum. induction entries as [|entry entries IH]; cbn.
  - destruct (fold_right _ _ entries'); reflexivity.
  - rewrite IH. symmetry. apply num_add_assoc.
Qed.

Lemma getMessageAttributesSize_entries_sum (entries : attributes) :
  getMessageAttributesSize (Some entries) = inr (entries_sum entries).
Proof.
  unfold getMessageAttributesSize. rewrite fold_attribute_step.
  unfold entries_sum. destruct (fold_right _ _ entries); reflexivity.
Qed.

(** X6. The attribute size does not depend on the order in which the entries
    are enumerated, and neither does the total. *)
Theorem X6_attribute_size_ignores_order (message : jsval)
    (entries entries' : attributes) :
  Permutation entries entries' ->
  getMessageAttributesSize (Some entries) =
  getMessageAttributesSize (Some entries') /\
  getTotalMessageSize message (Some entries) =
  getTotalMessageSize message (Some entries').
Proof.
  intros Hperm.
  assert (Hsize : getMessageAttributesSize (Some entries) =
                  getMessageAttributesSize (Some entries')).
  { rewrite !getMessageAttributesSize_entries_sum.
    now rewrite (entries_sum_permutation _ _ Hperm). }
  split; [exact Hsize|].
  unfold getTotalMessageSize. now rewrite Hsize.
Qed.

Lemma X6_attribute_size_ignores_order_witness :
  getMessageAttributesSize
    (Some [(js "a", text_attribute euro_sign);
           (js "b", empty_buffer_attribute)]) =
  getMessageAttributesSize
    (Some [(js "b", empty_buffer_attribute);
           (js "a", text_attribute euro_sign)]).
Proof.
  apply (X6_attribute_size_ignores_order scenario_body
           [(js "a", text_attribute euro_sign); (js "b", empty_buffer_attribute)]
           [(js "b", empty_buffer_attribute); (js "a", text_attribute euro_sign)]).
  apply perm_swap.
Defined.

(** X7. The attribute size of two collections put together is the sum of
    their attribute sizes, and the attribute size of no entries is zero. *)
Theorem X7_attribute_size_is_additive (entries entries' : attributes) :
  getMessageAttributesSize (Some []) = inr (Int 0) /\
  forall size size',
    getMessageAttributesSize (Some entries) = inr size ->
    getMessageAttributesSize (Some entries') = inr size' ->
    getMessageAttributesSize (Some (entries ++ entries')) =
    inr (num_add size size').
Proof.
  split; [reflexivity|].
  intros size size'. rewrite !getMessageAttributesSize_entries_sum.
  intros Hs Hs'. injection Hs as <-. injection Hs' as <-.
  now rewrite entries_sum_app.
Qed.

Lemma X7_attribute_size_is_additive_witness :
  getMessageAttributesSize
    (Some ([(js "a", text_attribute euro_sign)]
           ++ [(js "bc", text_attribute (js "v"))])) =
  inr (num_add (Int 10) (Int 9)).
Proof.
  apply (proj2 (X7_attribute_size_is_additive
                  [(js "a", text_attribute euro_sign)]
                  [(js "bc", text_attribute (js "v"))]));
    reflexivity.
Defined.

Lemma entry_size_cases (entry : jsstring * MessageAttributeValue) :
  match BinaryValue (snd entry) with
  | Some v =>
      if zero_length v then entry_size entry = NaN
      else exists z, entry_size entry = Int z /\ 0 <= z
  | None => exists z, entry_size entry = Int z /\ 0 <= z
  end.
Proof.
  destruct entry as [attrName attr]. cbn [snd].
  pose proof (getBinarySizeInBytes_cases (BinaryValue attr)) as Hbin.
  pose proof (Buffer_byteLength_nonneg attrName) as Hname.
  pose proof (Buffer_byteLength_nonneg (or_empty (DataType attr))) as Htype.
  pose proof (Buffer_byteLength_nonneg (or_empty (StringValue attr))) as Htext.
  unfold entry_size, attribute_step, getStringSizeInBytes. cbn [num_add or_empty].
  destruct (BinaryValue attr) as [v|].
  - destruct (zero_length v).
    + rewrite Hbin. reflexivity.
    + destruct Hbin as (z & -> & Hz). cbn. eexists. split; [reflexivity|]. lia.
  - rewrite Hbin. cbn. eexists. split; [reflexivity|]. lia.
Qed.

Lemma entries_sum_cases (entries : attributes) :
  if has_zero_length_binary entries then entries_sum entries = NaN
  else exists z, entries_sum entries = Int z /\ 0 <= z.
Proof.
  induction entries as [|entry entries IH].
  - cbn. exists 0. split; [reflexivity | lia].
  - pose proof (entry_size_cases entry) as Hentry.
    cbn [has_zero_length_binary existsb].
    fold (has_zero_length_binary entries).
    change (entries_sum (entry :: entries))
      with (num_add (entry_size entry) (entries_sum entries)).
    destruct (BinaryValue (snd entry)) as [v|].
    + destruct (zero_length v); cbn [orb].
      * now rewrite Hentry.
      * destruct Hentry as (z & -> & Hz).
        destruct (has_zero_length_binary entries).
        -- now rewrite IH.
        -- destruct IH as (z' & -> & Hz'). cbn. eexists.
           split; [reflexivity | lia].
    + cbn [orb]. destruct Hentry as (z & -> & Hz).
      destruct (has_zero_length_binary entries).
      * now rewrite IH.
      * destruct IH as (z' & -> & Hz'). cbn. eexists.
        split; [reflexivity | lia].
Qed.

Lemma getTotalMessageSize_entries_sum (message : jsval) (entries : attributes) :
  getTotalMessageSize message (Some entries) =
  inr (num_add (getMessageSize message) (entries_sum entries)).
Proof.
  unfold getTotalMessageSize.
  now rewrite getMessageAttributesSize_entries_sum.
Qed.

(** X8. With attributes supplied the total is NaN exactly when some entry has
    a binary value of length zero; otherwise it is the body size plus the
    attribute size, two numbers that are not negative. *)
Theorem X8_total_is_NaN_iff (message : jsval) (entries : attributes) :
  (getTotalMessageSize message (Some entries) = inr NaN <->
   has_zero_length_binary entries = true) /\
  (has_zero_length_binary entries = false ->
   exists body attrs,
     getMessageSize message = Int body /\ 0 <= body /\
     getMessageAttributesSize (Some entries) = inr (Int attrs) /\ 0 <= attrs /\
     getTotalMessageSize message (Some entries) = inr (Int (body + attrs))).
Proof.
  pose proof (entries_sum_cases entries) as Hsum.
  destruct (getStringSizeInBytes_number (JSON_stringify message))
    as (body & Hbody & Hpos).
  fold (getMessageSize message) in Hbody.
  rewrite getTotalMessageSize_entries_sum, getMessageAttributesSize_entries_sum.
  rewrite Hbody.
  destruct (has_zero_length_binary entries).
  - rewrite Hsum. cbn. split; [split; reflexivity | discriminate].
  - destruct Hsum as (attrs & -> & Hattrs). cbn. split.
    + split; discriminate.
    + intros _. exists body, attrs. auto.
Qed.

Lemma X8_total_is_NaN_iff_witness :
  getTotalMessageSize scenario_body
    (Some [(js "a", text_attribute (js "v"));
           (js "b", binary_attribute (TypedArray 8 0))]) = inr NaN /\
  exists body attrs,
    getMessageSize scenario_body = Int body /\ 0 <= body /\
    getMessageAttributesSize (Some [(js "a", binary_attribute (Blob 0))]) =
    inr (Int attrs) /\ 0 <= attrs /\
    getTotalMessageSize scenario_body
      (Some [(js "a", binary_attribute (Blob 0))]) = inr (Int (body + attrs)).
Proof.
  split.
  - apply (proj1 (X8_total_is_NaN_iff scenario_body
                    [(js "a", text_attribute (js "v"));
                     (js "b", binary_attribute (TypedArray 8 0))])).
    reflexivity.
  - apply (proj2 (X8_total_is_NaN_iff scenario_body
                    [(js "a", binary_attribute (Blob 0))])).
    reflexivity.
Defined.

(** X9. When an entry has a binary value of length zero and the force-offload
    flag is off, the message is sent the direct path whatever its size and
    whatever the threshold. *)
Theorem X9_zero_length_binary_always_direct {Ack Failure}
    (env : Collaborators Ack Failure) (this : SqsHeavyLifter)
    (message : jsval) (entries : attributes) (w : world) :
  truthy message = true ->
  (List.length entries <= 10)%nat ->
  truthy (alwaysS3 this) = false ->
  has_zero_length_binary entries = true ->
  sendMessage env this message (Some entries) w =
  _sendToSQS env this message (Some entries) w.
Proof.
  intros Hbody Hcount Hforce Hzero.
  rewrite sendMessage_valid; [|exact Hbody|].
  - rewrite Hforce, getTotalMessageSize_entries_sum.
    pose proof (entries_sum_cases entries) as Hsum. rewrite Hzero in Hsum.
    rewrite Hsum. destruct (getMessageSize message); reflexivity.
  - intros entries' Heq. injection Heq as <-. exact Hcount.
Qed.

Lemma X9_zero_length_binary_always_direct_witness :
  sendMessage reliable (scenario_lifter false 1)
    (Str (js "a body that is longer than one byte"))
    (Some [(js "b", binary_attribute (NodeBuffer []))]) fresh_world =
  _sendToSQS reliable (scenario_lifter false 1)
    (Str (js "a body that is longer than one byte"))
    (Some [(js "b", binary_attribute (NodeBuffer []))]) fresh_world.
Proof.
  apply X9_zero_length_binary_always_direct;
    [reflexivity | cbn; lia | reflexivity | reflexivity].
Defined.

Lemma utf8_of_code_unit_length (u : N) :
  (u < 0x10000)%N -> (List.length (utf8_of_code_point u) <= 3)%nat.
Proof.
  intros Hu. rewrite utf8_of_code_point_length.
  destruct (u <? 0x80)%N; [lia|].
  destruct (u <? 0x800)%N; [lia|].
  destruct (N.ltb_spec u 0x10000); lia.
Qed.

Lemma utf8_encode_length_upper (n : nat) :
  forall s : jsstring,
    (List.length s <= n)%nat ->
    code_units s ->
    (List.length (utf8_encode s) <= 3 * List.length s)%nat.
Proof.
  induction n as [|n IH]; intros s Hn Hunits.
  - destruct s; [cbn; lia | cbn in Hn; lia].
  - destruct s as [|u rest]; [cbn; lia|].
    cbn [utf8_encode]. cbn in Hn.
    inversion Hunits as [|u' rest' Hu Hrest]; subst.
    destruct (is_high_surrogate u).
    + destruct rest as [|lo rest'].
      * cbn. lia.
      * inversion Hrest as [|lo' rest'' Hlo Hrest']; subst.
        destruct (is_low_surrogate lo).
        -- pose proof (IH rest') as Hle.
           rewrite length_app, utf8_of_pair_length. cbn [List.length] in *.
           specialize (Hle ltac:(lia) Hrest'). lia.
        -- pose proof (IH (lo :: rest') ltac:(cbn in *; lia) Hrest) as Hle.
           rewrite length_app.
           change (List.length (utf8_of_code_point REPLACEMENT_CHARACTER))
             with 3%nat.
           cbn [List.length] in *. lia.
    + pose proof (IH rest ltac:(lia) Hrest) as Hle.
      destruct (is_low_surrogate u).
      * rewrite length_app.
        change (List.length (utf8_of_code_point REPLACEMENT_CHARACTER))
          with 3%nat.
        cbn [List.length]. lia.
      * rewrite length_app. pose proof (utf8_of_code_unit_length u Hu).
        cbn [List.length]. lia.
Qed.

Lemma utf8_encode_ascii (s : jsstring) :
  forallb is_ascii s = true -> utf8_encode s = s.
Proof.
  induction s as [|u rest IH]; [reflexivity|].
  cbn [forallb]. intros H. apply andb_prop in H. destruct H as [Hu Hrest].
  cbn [utf8_encode].
  assert (Hhi : is_high_surrogate u = false).
  { destruct (is_high_surrogate u) eqn:E; [|reflexivity].
    rewrite (surrogate_not_ascii u (or_introl E)) in Hu. discriminate Hu. }
  assert (Hlo : is_low_surrogate u = false).
  { destruct (is_low_surrogate u) eqn:E; [|reflexivity].
    rewrite (surrogate_not_ascii u (or_intror E)) in Hu. discriminate Hu. }
  rewrite Hhi, Hlo, (IH Hrest). unfold utf8_of_code_point.
  unfold is_ascii in Hu. now rewrite Hu.
Qed.

(** X10. The size of a string is at least its number of code units and, for
    code units below 2^16, at most three times that number; for a string of
    ASCII characters it is exactly the number of its characters, and the bytes
    are the characters themselves. *)
Theorem X10_string_size_bounds (s : jsstring) :
  (exists z,
      getStringSizeInBytes (Some s) = Int z /\
      Z.of_nat (List.length s) <= z /\
      (code_units s -> z <= 3 * Z.of_nat (List.length s))) /\
  (forallb is_ascii s = true ->
   utf8_encode s = s /\
   getStringSizeInBytes (Some s) = Int (Z.of_nat (List.length s))).
Proof.
  split.
  - exists (Buffer_byteLength s). split; [reflexivity|].
    unfold Buffer_byteLength. split.
    + destruct (utf8_encode_length_bounded (List.length s) s (le_n _))
        as [Hle _]. lia.
    + intros Hunits.
      pose proof (utf8_encode_length_upper (List.length s) s (le_n _) Hunits).
      lia.
  - intros Hascii. pose proof (utf8_encode_ascii s Hascii) as Henc.
    split; [exact Henc|].
    unfold getStringSizeInBytes, Buffer_byteLength. cbn [or_empty].
    now rewrite Henc.
Qed.

Lemma euro_is_code_units : code_units (euro_sign ++ js "1").
Proof.
  repeat constructor.
Defined.

Lemma X10_string_size_bounds_witness :
  (exists z,
      getStringSizeInBytes (Some (euro_sign ++ js "1")) = Int z /\ z <= 6) /\
  getStringSizeInBytes (Some (js "String")) = Int 6.
Proof.
  split.
  - destruct (proj1 (X10_string_size_bounds (euro_sign ++ js "1")))
      as (z & Hz & _ & Hupper).
    exists z. split; [exact Hz|].
    exact (Hupper euro_is_code_units).
  - apply (proj2 (X10_string_size_bounds (js "String"))). reflexivity.
Defined.

(** X11. Adding entries never brings a message back to the direct path: when a
    message with some entries exceeds the threshold, it still does with
    further entries, none of them with a binary value of length zero, and it
    is offloaded as long as the entries are at most ten. *)
Theorem X11_more_attributes_keep_offload {Ack Failure}
    (env : Collaborators Ack Failure) (this : SqsHeavyLifter)
    (message : jsval) (entries extra : attributes) (w : world)
    (total : number) :
  truthy message = true ->
  (List.length (entries ++ extra) <= 10)%nat ->
  has_zero_length_binary extra = false ->
  getTotalMessageSize message (Some entries) = inr total ->
  num_gt total (maxMessageSize this) = true ->
  exists total',
    getTotalMessageSize message (Some (entries ++ extra)) = inr total' /\
    num_gt total' (maxMessageSize this) = true /\
    sendMessage env this message (Some (entries ++ extra)) w =
    _sendThroughS3 env this message (Some (entries ++ extra)) w.
Proof.
  intros Hbody Hcount Hextra Htotal Hgt.
  rewrite getTotalMessageSize_entries_sum in Htotal.
  assert (Heq : total = num_add (getMessageSize message) (entries_sum entries))
    by congruence.
  subst total. clear Htotal.
  pose proof (entries_sum_cases extra) as Hsum. rewrite Hextra in Hsum.
  destruct Hsum as (z & Hz & Hpos).
  exists (num_add (getMessageSize message) (entries_sum (entries ++ extra))).
  assert (Hgt' : num_gt (num_add (getMessageSize message)
                                 (entries_sum (entries ++ extra)))
                        (maxMessageSize this) = true).
  { rewrite entries_sum_app, Hz.
    destruct (getStringSizeInBytes_number (JSON_stringify message))
      as (b & Hb & _).
    fold (getMessageSize message) in Hb. rewrite Hb in Hgt |- *.
    destruct (entries_sum entries) as [|a], (maxMessageSize this) as [|t];
      cbn in Hgt |- *; try discriminate.
    apply Z.ltb_lt in Hgt. apply Z.ltb_lt. lia. }
  split; [apply getTotalMessageSize_entries_sum|]. split; [exact Hgt'|].
  apply sendMessage_offload; [exact Hbody | |].
  - intros l Hl. injection Hl as <-. exact Hcount.
  - right. eexists. split; [apply getTotalMessageSize_entries_sum | exact Hgt'].
Qed.

Lemma X11_more_attributes_keep_offload_witness :
  exists total',
    getTotalMessageSize scenario_body
      (Some ([] ++ [(js "a", text_attribute euro_sign)])) = inr total' /\
    num_gt total' (maxMessageSize (scenario_lifter false 6)) = true /\
    sendMessage reliable (scenario_lifter false 6) scenario_body
      (Some ([] ++ [(js "a", text_attribute euro_sign)])) fresh_world =
    _sendThroughS3 reliable (scenario_lifter false 6) scenario_body
      (Some ([] ++ [(js "a", text_attribute euro_sign)])) fresh_world.
Proof.
  apply (X11_more_attributes_keep_offload reliable (scenario_lifter false 6)
           scenario_body [] [(js "a", text_attribute euro_sign)] fresh_world
           (Int 7));
    [reflexivity | cbn; lia | reflexivity | reflexivity | reflexivity].
Defined.

(** ** More on sending *)

Section Requests.

Context {Ack Failure : Type}.
Variable env : Collaborators Ack Failure.
Variable this : SqsHeavyLifter.

Lemma sendMessage_cases message messageAttributes w :
  (exists e, sendMessage env this message messageAttributes w = (Throws e, w)) \/
  sendMessage env this message messageAttributes w =
  _sendToSQS env this message messageAttributes w \/
  sendMessage env this message messageAttributes w =
  _sendThroughS3 env this message messageAttributes w.
Proof.
  unfold sendMessage.
  destruct (negb (truthy message)); [left; eexists; reflexivity|].
  destruct (too_many_attributes messageAttributes);
    [left; eexists; reflexivity|].
  destruct (truthy (alwaysS3 this)); [right; right; reflexivity|].
  destruct (getTotalMessageSize message messageAttributes) as [e|total];
    [left; eexists; reflexivity|].
  destruct (num_gt total (maxMessageSize this)); auto.
Qed.

Lemma _sendToSQS_never_throws message messageAttributes w e :
  fst (_sendToSQS env this message messageAttributes w) <> Throws e.
Proof.
  unfold _sendToSQS. cbn. destruct (sqs_sendMessage env _ _); discriminate.
Qed.

(** [_sendThroughS3] throws on an AWS.Request only, after [putObject] was
    called. *)
Lemma _sendThroughS3_throws message messageAttributes w e :
  fst (_sendThroughS3 env this message messageAttributes w) = Throws e ->
  s3_putObject env (calls w)
    (offload_request this (uuid_v4 env (draws w)) message) = AWSRequest /\
  e = THEN_IS_NOT_A_FUNCTION.
Proof.
  destruct (_sendThroughS3_sent_offload env this message messageAttributes w)
    as (_ & Hpath).
  destruct (s3_putObject env (calls w) _) as [|[reason|]].
  - destruct Hpath as [_ ->]. intros H. injection H as <-. auto.
  - destruct Hpath as [_ ->]. discriminate.
  - destruct Hpath as [_ ->]. destruct (sqs_sendMessage env _ _); discriminate.
Qed.

(** The size computation throws on absent attributes only. *)
Lemma getTotalMessageSize_throws message messageAttributes e :
  getTotalMessageSize message messageAttributes = inl e ->
  messageAttributes = None /\
  e = TypeError "Cannot convert undefined or null to object".
Proof.
  destruct messageAttributes as [entries|].
  - rewrite getTotalMessageSize_entries_sum. discriminate.
  - cbn. intros H. injection H as <-. auto.
Qed.

Lemma too_many_attributes_ok messageAttributes :
  too_many_attributes messageAttributes = false ->
  attribute_count_ok messageAttributes.
Proof.
  unfold too_many_attributes, attribute_count_ok, MAX_MESSAGE_ATTRIBUTES.
  intros Hfew entries ->. now apply Nat.ltb_ge in Hfew.
Qed.

End Requests.

(** X12. A call of [sendMessage] only appends to the calls made to the
    collaborators, and what it appends is one of five things: nothing, when it
    throws in its checks or in the size computation; the queue send of the
    body; the call of [putObject] alone, when that returns an AWS.Request and
    the missing [then] throws; the call of [putObject] alone, when the write
    is rejected; or the call of [putObject] followed by the queue send of the
    pointer message.  A key is drawn exactly when [putObject] is called. *)
Theorem X12_requests_of_a_call {Ack Failure}
    (env : Collaborators Ack Failure) (this : SqsHeavyLifter)
    (message : jsval) (messageAttributes : option attributes) (w : world) :
  let r := sendMessage env this message messageAttributes w in
  let key := uuid_v4 env (draws w) in
  let put := S3PutObject (offload_request this key message) in
  (snd r = w /\ exists e, fst r = Throws e) \/
  (calls (snd r) =
   calls w ++ [SQSSendMessage (direct_request this message messageAttributes)] /\
   draws (snd r) = draws w) \/
  (calls (snd r) = calls w ++ [put] /\
   draws (snd r) = S (draws w) /\
   fst r = Throws THEN_IS_NOT_A_FUNCTION) \/
  (calls (snd r) = calls w ++ [put] /\
   draws (snd r) = S (draws w) /\
   exists reason, fst r = Rejects reason) \/
  (calls (snd r) =
   calls w ++ [put; SQSSendMessage (pointer_request this key messageAttributes)] /\
   draws (snd r) = S (draws w)).
Proof.
  intros r key put. subst r.
  destruct (sendMessage_cases env this message messageAttributes w)
    as [[e ->] | [-> | ->]].
  - left. split; [reflexivity | now exists e].
  - right; left.
    destruct (_sendToSQS_sent_direct env this message messageAttributes w)
      as (Hcalls & Hdraws & _).
    auto.
  - right; right.
    destruct (_sendThroughS3_sent_offload env this message messageAttributes w)
      as (Hdraws & Hpath).
    fold key in Hpath. fold put in Hpath.
    destruct (s3_putObject env (calls w) (offload_request this key message))
      as [|[reason|]].
    + left. destruct Hpath as [Hcalls Hout]. auto.
    + right; left. destruct Hpath as [Hcalls Hout].
      split; [exact Hcalls|]. split; [exact Hdraws | now exists reason].
    + right; right. destruct Hpath as [Hcalls _]. auto.
Qed.

(** X13. [sendMessage] throws in four cases only: 'message is required' for a
    falsy body; the attribute limit for a present body with more than ten
    entries; a TypeError of the size computation for a present body without
    attributes on a dispatcher whose force-offload flag is off; and, for a
    call that is routed to the offload path, a TypeError at the missing
    [then] when [putObject] returns an AWS.Request.  In the first three cases
    nothing has been done before; in the fourth a key was drawn and
    [putObject] was called, and the queue was not. *)
Theorem X13_throws_iff {Ack Failure}
    (env : Collaborators Ack Failure) (this : SqsHeavyLifter)
    (message : jsval) (messageAttributes : option attributes) (w : world)
    (e : exn) :
  (fst (sendMessage env this message messageAttributes w) = Throws e <->
   (truthy message = false /\ e = Error "message is required") \/
   (truthy message = true /\
    (exists entries : attributes,
        messageAttributes = Some entries /\ (10 < List.length entries)%nat) /\
    e = Error "messageAttributes may contain up to 10 attributes") \/
   (truthy message = true /\
    messageAttributes = None /\
    truthy (alwaysS3 this) = false /\
    e = TypeError "Cannot convert undefined or null to object") \/
   (truthy message = true /\
    attribute_count_ok messageAttributes /\
    offload_triggered this message messageAttributes /\
    s3_putObject env (calls w)
      (offload_request this (uuid_v4 env (draws w)) message) = AWSRequest /\
    e = THEN_IS_NOT_A_FUNCTION)) /\
  (fst (sendMessage env this message messageAttributes w) = Throws e ->
   e <> THEN_IS_NOT_A_FUNCTION ->
   snd (sendMessage env this message messageAttributes w) = w) /\
  (fst (sendMessage env this message messageAttributes w) =
   Throws THEN_IS_NOT_A_FUNCTION ->
   snd (sendMessage env this message messageAttributes w) =
   {| draws := S (draws w);
      calls := calls w ++
               [S3PutObject
                  (offload_request this (uuid_v4 env (draws w)) message)] |}).
Proof.
  assert (Hlater :
            forall e',
              fst (sendMessage env this message messageAttributes w) =
              Throws e' ->
              (snd (sendMessage env this message messageAttributes w) = w /\
               e' <> THEN_IS_NOT_A_FUNCTION) \/
              (e' = THEN_IS_NOT_A_FUNCTION /\
               snd (sendMessage env this message messageAttributes w) =
               {| draws := S (draws w);
                  calls := calls w ++
                           [S3PutObject
                              (offload_request this (uuid_v4 env (draws w))
                                               message)] |})).
  { intros e'. unfold sendMessage.
    destruct (negb (truthy message));
      [cbn; intros H; injection H as <-; left; split;
       [reflexivity | discriminate]|].
    destruct (too_many_attributes messageAttributes);
      [cbn; intros H; injection H as <-; left; split;
       [reflexivity | discriminate]|].
    assert (Hs3 :
              fst (_sendThroughS3 env this message messageAttributes w) =
              Throws e' ->
              e' = THEN_IS_NOT_A_FUNCTION /\
              snd (_sendThroughS3 env this message messageAttributes w) =
              {| draws := S (draws w);
                 calls := calls w ++
                          [S3PutObject
                             (offload_request this (uuid_v4 env (draws w))
                                              message)] |}).
    { intros H. destruct (_sendThroughS3_throws env this _ _ _ _ H)
        as [Hput ->].
      split; [reflexivity|].
      destruct (_sendThroughS3_sent_offload env this message
                  messageAttributes w) as (Hdraws & Hpath).
      rewrite Hput in Hpath. destruct Hpath as [Hcalls _].
      destruct (snd (_sendThroughS3 env this message messageAttributes w))
        as [d c].
      cbn in Hdraws, Hcalls. now subst. }
    destruct (truthy (alwaysS3 this)); [intros H; right; now apply Hs3|].
    destruct (getTotalMessageSize message messageAttributes) as [e0|total]
      eqn:Hsize.
    - cbn. intros H. injection H as <-. left. split; [reflexivity|].
      destruct (getTotalMessageSize_throws _ _ _ Hsize) as [_ ->].
      discriminate.
    - destruct (num_gt total (maxMessageSize this)).
      + intros H. right. now apply Hs3.
      + intros H. now apply _sendToSQS_never_throws in H. }
  split; [|split].
  - split.
    + unfold sendMessage.
      destruct (truthy message) eqn:Hbody; cbn [negb].
      2:{ cbn. intros H. injection H as <-. left. auto. }
      destruct (too_many_attributes messageAttributes) eqn:Hmany.
      * cbn. intros H. injection H as <-. right; left.
        split; [reflexivity|]. split; [|reflexivity].
        destruct messageAttributes as [entries|]; [|discriminate].
        exists entries. split; [reflexivity|].
        unfold too_many_attributes, MAX_MESSAGE_ATTRIBUTES in Hmany.
        now apply Nat.ltb_lt in Hmany.
      * pose proof (too_many_attributes_ok _ Hmany) as Hcount.
        destruct (truthy (alwaysS3 this)) eqn:Hforce.
        -- intros H. destruct (_sendThroughS3_throws env this _ _ _ _ H)
             as [Hput ->].
           right; right; right. repeat split; auto. now left.
        -- destruct (getTotalMessageSize message messageAttributes)
             as [e0|total] eqn:Hsize.
           ++ cbn. intros H. injection H as <-. right; right; left.
              destruct (getTotalMessageSize_throws _ _ _ Hsize) as [-> ->].
              auto.
           ++ destruct (num_gt total (maxMessageSize this)) eqn:Hgt; intros H.
              ** destruct (_sendThroughS3_throws env this _ _ _ _ H)
                   as [Hput ->].
                 right; right; right. repeat split; auto.
                 right. now exists total.
              ** now apply _sendToSQS_never_throws in H.
    + intros [(Hbody & ->) | [(Hbody & (entries & -> & Hmany) & ->)
                              | [(Hbody & -> & Hforce & ->)
                                | (Hbody & Hcount & Htrig & Hput & ->)]]].
      * unfold sendMessage. rewrite Hbody. reflexivity.
      * unfold sendMessage. rewrite Hbody. cbn [negb].
        rewrite (too_many_attributes_true entries Hmany). reflexivity.
      * unfold sendMessage. rewrite Hbody. cbn [negb too_many_attributes].
        rewrite Hforce. reflexivity.
      * now rewrite (sendMessage_offload_on_request env this message
                       messageAttributes w Hbody Hcount Htrig Hput).
  - intros Hthrows Hnot.
    destruct (Hlater e Hthrows) as [[Hw _] | [Habs _]]; [exact Hw | congruence].
  - intros Hthrows.
    destruct (Hlater _ Hthrows) as [[_ Habs] | [_ Hw]]; [congruence | exact Hw].
Qed.

Lemma X13_throws_iff_witness :
  fst (sendMessage aws_sdk (scenario_lifter false 10) scenario_body None
                   fresh_world) =
  Throws (TypeError "Cannot convert undefined or null to object") /\
  snd (sendMessage aws_sdk (scenario_lifter false 10) scenario_body None
                   fresh_world) = fresh_world /\
  fst (sendMessage aws_sdk (scenario_lifter true 10) scenario_body (Some [])
                   fresh_world) = Throws THEN_IS_NOT_A_FUNCTION /\
  snd (sendMessage aws_sdk (scenario_lifter true 10) scenario_body (Some [])
                   fresh_world) =
  {| draws := 1;
     calls := [S3PutObject (offload_request (scenario_lifter true 10)
                                            (js "k0") scenario_body)] |}.
Proof.
  pose proof (X13_throws_iff aws_sdk (scenario_lifter false 10) scenario_body
                None fresh_world
                (TypeError "Cannot convert undefined or null to object"))
    as (Hiff & Hbefore & _).
  pose proof (X13_throws_iff aws_sdk (scenario_lifter true 10) scenario_body
                (Some []) fresh_world THEN_IS_NOT_A_FUNCTION)
    as (Hiff' & _ & Hafter).
  assert (Hsize :
            fst (sendMessage aws_sdk (scenario_lifter false 10) scenario_body
                             None fresh_world) =
            Throws (TypeError "Cannot convert undefined or null to object")).
  { apply (proj2 Hiff). right; right; left. repeat split; reflexivity. }
  assert (Hthen :
            fst (sendMessage aws_sdk (scenario_lifter true 10) scenario_body
                             (Some []) fresh_world) =
            Throws THEN_IS_NOT_A_FUNCTION).
  { apply (proj2 Hiff'). right; right; right.
    split; [reflexivity|]. split; [exact no_attributes_count_ok|].
    split; [left; reflexivity|]. split; reflexivity. }
  split; [exact Hsize|]. split; [|split; [exact Hthen|]].
  - apply (Hbefore Hsize). discriminate.
  - exact (Hafter Hthen).
Defined.

(** X14. On the direct path a rejection of the queue reaches the caller
    unchanged and is not retried: the rejected send is the only call the
    dispatcher makes. *)
Theorem X14_queue_rejection_propagates {Ack Failure}
    (env : Collaborators Ack Failure) (this : SqsHeavyLifter)
    (message : jsval) (messageAttributes : option attributes) (w : world)
    (total : number) (reason : Failure) :
  truthy message = true ->
  attribute_count_ok messageAttributes ->
  truthy (alwaysS3 this) = false ->
  getTotalMessageSize message messageAttributes = inr total ->
  num_le total (maxMessageSize this) = true ->
  sqs_sendMessage env (calls w)
    (direct_request this message messageAttributes) = inr reason ->
  sendMessage env this message messageAttributes w =
  (Rejects reason,
   {| draws := draws w;
      calls := calls w ++
               [SQSSendMessage
                  (direct_request this message messageAttributes)] |}).
Proof.
  intros Hbody Hcount Hforce Hsize Hle Hqueue.
  rewrite (sendMessage_direct env this message messageAttributes w total)
    by assumption.
  unfold _sendToSQS. fold (direct_request this message messageAttributes).
  now rewrite Hqueue.
Qed.

Lemma X14_queue_rejection_propagates_witness :
  sendMessage failing_queue (scenario_lifter false 10) scenario_body (Some [])
              fresh_world =
  (Rejects "ServiceUnavailable"%string,
   {| draws := 0;
      calls := [SQSSendMessage
                  (direct_request (scenario_lifter false 10) scenario_body
                                  (Some []))] |}).
Proof.
  apply (X14_queue_rejection_propagates failing_queue
           (scenario_lifter false 10) scenario_body (Some []) fresh_world
           (Int 7) "ServiceUnavailable"%string eq_refl no_attributes_count_ok);
    reflexivity.
Defined.

(** X15. A call that is acknowledged has sent exactly one message to the
    queue, as its last request, to the queue URL of the dispatcher and with
    the attributes of the caller unchanged; the acknowledgment is the answer
    of the queue to that request. *)
Theorem X15_acknowledged_call_sent_once {Ack Failure}
    (env : Collaborators Ack Failure) (this : SqsHeavyLifter)
    (message : jsval) (messageAttributes : option attributes) (w : world)
    (ack : Ack) :
  fst (sendMessage env this message messageAttributes w) = Fulfills ack ->
  exists before request,
    calls (snd (sendMessage env this message messageAttributes w)) =
    before ++ [SQSSendMessage request] /\
    sqs_sendMessage env before request = inl ack /\
    queue_calls (snd (sendMessage env this message messageAttributes w)) =
    queue_calls w ++ [SQSSendMessage request] /\
    QueueUrl request = queueUrl this /\
    MessageAttributes request = messageAttributes.
Proof.
  intros Hack.
  destruct (sendMessage_cases env this message messageAttributes w)
    as [[e Heq] | [Heq | Heq]]; rewrite Heq in Hack |- *.
  - discriminate Hack.
  - destruct (_sendToSQS_sent_direct env this message messageAttributes w)
      as (Hcalls & _ & Hout).
    exists (calls w), (direct_request this message messageAttributes).
    split; [exact Hcalls|]. split.
    + rewrite Hout in Hack.
      destruct (sqs_sendMessage env (calls w) _) as [a|f];
        [congruence | discriminate].
    + unfold queue_calls. rewrite Hcalls, filter_app. auto.
  - destruct (_sendThroughS3_sent_offload env this message messageAttributes w)
      as (_ & Hpath).
    destruct (s3_putObject env (calls w) _) as [|[reason|]].
    + destruct Hpath as [_ Hout]. rewrite Hout in Hack. discriminate Hack.
    + destruct Hpath as [_ Hout]. rewrite Hout in Hack. discriminate Hack.
    + destruct Hpath as [Hcalls Hout].
      exists (calls w ++ [S3PutObject
                            (offload_request this (uuid_v4 env (draws w))
                                             message)]),
             (pointer_request this (uuid_v4 env (draws w)) messageAttributes).
      split; [rewrite Hcalls, <- app_assoc; reflexivity|]. split.
      * rewrite Hout in Hack.
        destruct (sqs_sendMessage env _ _) as [a|f];
          [congruence | discriminate].
      * unfold queue_calls. rewrite Hcalls, filter_app. auto.
Qed.

Lemma X15_acknowledged_call_sent_once_witness :
  exists before request,
    calls (snd (sendMessage aws_sdk (scenario_lifter false 10) scenario_body
                            (Some []) fresh_world)) =
    before ++ [SQSSendMessage request] /\
    sqs_sendMessage aws_sdk before request = inl 0%nat /\
    queue_calls (snd (sendMessage aws_sdk (scenario_lifter false 10)
                                  scenario_body (Some []) fresh_world)) =
    queue_calls fresh_world ++ [SQSSendMessage request] /\
    QueueUrl request = queueUrl (scenario_lifter false 10) /\
    MessageAttributes request = Some [].
Proof.
  apply (X15_acknowledged_call_sent_once aws_sdk (scenario_lifter false 10)
           scenario_body (Some []) fresh_world 0%nat).
  reflexivity.
Defined.

(** X17. A dispatcher built from options without threshold and without
    force-offload flag sends a valid message whose total size is a number the
    direct path up to 262144 bytes, and offloads it from 262145 bytes on. *)
Theorem X17_default_threshold_routing {Ack Failure}
    (env : Collaborators Ack Failure) (options : Options)
    (this : SqsHeavyLifter) (message : jsval)
    (messageAttributes : option attributes) (w : world) (total : Z) :
  constructor (Some options) = inr this ->
  truthy (opt_maxMessageSize options) = false ->
  truthy (opt_alwaysS3 options) = false ->
  truthy message = true ->
  attribute_count_ok messageAttributes ->
  getTotalMessageSize message messageAttributes = inr (Int total) ->
  sendMessage env this message messageAttributes w =
  if total <=? 262144
  then _sendToSQS env this message messageAttributes w
  else _sendThroughS3 env this message messageAttributes w.
Proof.
  intros Hok Hunset Hforce Hbody Hcount Hsize.
  destruct (constructor_threshold options this Hok) as (Hmax & _ & _ & Hflag).
  assert (Hdefault : maxMessageSize this = Int 262144).
  { rewrite Hmax.
    destruct (opt_maxMessageSize options) as [| |b|n|s|l|l]; cbn in *;
      try reflexivity.
    now rewrite Hunset. }
  rewrite sendMessage_valid by assumption.
  rewrite Hflag, Hforce, Hsize, Hdefault. cbn [num_gt].
  destruct (Z.leb_spec total 262144) as [Hle|Hgt].
  - destruct (Z.ltb_spec 262144 total); [lia | reflexivity].
  - destruct (Z.ltb_spec 262144 total); [reflexivity | lia].
Qed.

Lemma X17_default_threshold_routing_witness :
  exists this,
    constructor (Some (scenario_options Undefined)) = inr this /\
    sendMessage reliable this scenario_body (Some []) fresh_world =
    _sendToSQS reliable this scenario_body (Some []) fresh_world.
Proof.
  eexists. split; [reflexivity|].
  apply (X17_default_threshold_routing reliable (scenario_options Undefined)
           _ scenario_body (Some []) fresh_world 7);
    [reflexivity | reflexivity | reflexivity | reflexivity
     | exact no_attributes_count_ok | reflexivity].
Defined.

(** X18. Two calls in a row on a dispatcher that always offloads take two
    successive keys of the generator, the first for the blob write of the
    first call and the second for that of the second, also when the two bodies
    are the same: the keys of the two objects differ exactly when the two
    draws do. *)
Theorem X18_successive_calls_draw_successive_keys {Ack Failure}
    (env : Collaborators Ack Failure) (this : SqsHeavyLifter)
    (first second : jsval) (attributes1 attributes2 : option attributes)
    (w : world) :
  truthy (alwaysS3 this) = true ->
  truthy first = true ->
  truthy second = true ->
  attribute_count_ok attributes1 ->
  attribute_count_ok attributes2 ->
  let r1 := sendMessage env this first attributes1 w in
  let r2 := sendMessage env this second attributes2 (snd r1) in
  draws (snd r2) = S (S (draws w)) /\
  blob_calls (snd r2) =
  blob_calls w ++
  [S3PutObject (offload_request this (uuid_v4 env (draws w)) first);
   S3PutObject (offload_request this (uuid_v4 env (S (draws w))) second)].
Proof.
  intros Hforce Hfirst Hsecond Hcount1 Hcount2 r1 r2.
  assert (Hblob :
            forall message messageAttributes w0,
              truthy message = true ->
              attribute_count_ok messageAttributes ->
              draws (snd (sendMessage env this message messageAttributes w0)) =
              S (draws w0) /\
              blob_calls (snd (sendMessage env this message messageAttributes
                                           w0)) =
              blob_calls w0 ++
              [S3PutObject
                 (offload_request this (uuid_v4 env (draws w0)) message)]).
  { intros message messageAttributes w0 Hbody Hcount.
    rewrite (sendMessage_offload env this message messageAttributes w0
               Hbody Hcount (or_introl Hforce)).
    destruct (_sendThroughS3_sent_offload env this message messageAttributes
                w0) as (Hdraws & Hpath).
    split; [exact Hdraws|]. unfold blob_calls.
    destruct (s3_putObject env (calls w0) _) as [|[reason|]];
      destruct Hpath as [-> _]; rewrite filter_app; reflexivity. }
  destruct (Hblob first attributes1 w Hfirst Hcount1) as [Hd1 Hb1].
  destruct (Hblob second attributes2 (snd r1) Hsecond Hcount2) as [Hd2 Hb2].
  fold r1 in Hd1, Hb1. fold r2 in Hd2, Hb2.
  rewrite Hd1 in Hd2, Hb2. rewrite Hb1 in Hb2.
  split; [exact Hd2|]. rewrite Hb2, <- app_assoc. reflexivity.
Qed.

Lemma X18_successive_calls_draw_successive_keys_witness :
  blob_calls
    (snd (sendMessage aws_sdk (scenario_lifter true 10) scenario_body None
            (snd (sendMessage aws_sdk (scenario_lifter true 10) scenario_body
                              None fresh_world)))) =
  [S3PutObject (offload_request (scenario_lifter true 10) (js "k0")
                                scenario_body);
   S3PutObject (offload_request (scenario_lifter true 10) (js "k1")
                                scenario_body)].
Proof.
  apply (proj2 (X18_successive_calls_draw_successive_keys aws_sdk
                  (scenario_lifter true 10) scenario_body scenario_body
                  None None fresh_world eq_refl eq_refl eq_refl
                  absent_attributes_count_ok absent_attributes_count_ok)).
Defined.
